(** * User resolution of jx-changelog: [pkg/users/resolver.go]

    A shallow embedding of [GitUserResolver] and of its three entry points
    [Resolve], [GitSignatureAsUser] and [GitUserSliceAsUserDetailsSlice],
    followed by the properties the specification states about them, and
    of [GitProviderKey], [GitUserLogin] and the two conversions, followed
    by what every run of these functions has in common.

    Go strings are byte strings ([string]); a Go pointer that may be [nil]
    is an [option]; a Go [error] value is an [option error] with [None]
    for [nil].  The resolver talks to two collaborators, the user cache
    and the platform client: both are interfaces here (type classes over
    the collaborator's state), and every call to them is recorded in a
    trace, so that "the platform is not queried" and "the cache is not
    written" are statements about the trace. *)

From stdpp Require Import base strings list gmap.

(** ** Data *)

(** [scm.User] of go-scm, with the fields this package reads or writes. *)
Module scm.
Record User : Type := mkUser {
  Login : string;
  Name : string;
  Email : string;
  Link : string;
  Avatar : string
}.
End scm.

(** [object.Signature] of go-git; its [When] time stamp is never read. *)
Module object.
Record Signature : Type := mkSignature {
  Name : string;
  Email : string
}.
End object.

(** [jenkinsv1.UserDetails]: the three fields that [GitUserToUser] sets;
    every other field of the Go struct keeps its zero value throughout. *)
Module jenkinsv1.
Record UserDetails : Type := mkUserDetails {
  Login : string;
  Name : string;
  Email : string
}.
End jenkinsv1.

(** Go errors: an error made by a collaborator, known by its message, or
    an error wrapped with a message by [errors.Wrapf]. *)
Inductive error : Type :=
  | Opaque (msg : string)
  | WithMessage (cause : error) (msg : string).

(** [err.Error()], as pkg/errors prints a wrapped error. *)
Fixpoint Error (e : error) : string :=
  match e with
  | Opaque msg => msg
  | WithMessage cause msg => msg +:+ ": " +:+ Error cause
  end.

(** [errors.Wrapf(err, msg)] with the message already formatted; it is
    [nil] on a [nil] error. *)
Definition errors_Wrapf (err : option error) (msg : string) : option error :=
  match err with
  | None => None
  | Some e => Some (WithMessage e msg)
  end.

(** [strings.Replace(s, old, new, -1)] for a non-empty [old]: every
    non-overlapping occurrence of [old], scanning from the left, becomes
    [new].  [skip] counts the bytes of a matched [old] still to drop. *)
Fixpoint replace_from (old new : string) (skip : nat) (s : string) : string :=
  match s with
  | EmptyString => EmptyString
  | String c rest =>
      match skip with
      | S k => replace_from old new k rest
      | O =>
          if String.prefix old s
          then new +:+ replace_from old new (String.length old - 1) rest
          else String c (replace_from old new 0 rest)
      end
  end.

Definition strings_Replace (s old new : string) : string :=
  replace_from old new 0 s.

Definition ascii_space : Ascii.ascii := Ascii.ascii_of_nat 32.
Definition ascii_hyphen : Ascii.ascii := Ascii.ascii_of_nat 45.

(** The text [s] with each of its spaces turned into a hyphen and every
    other byte kept: what "spaces replaced by hyphens" says, written
    without [strings_Replace], which is compared with it below. *)
Fixpoint hyphenate (s : string) : string :=
  match s with
  | EmptyString => EmptyString
  | String c rest =>
      String (if Ascii.eqb c ascii_space then ascii_hyphen else c) (hyphenate rest)
  end.

(** ** Collaborators *)

(** Functions of other packages, taken as they are: [naming.ToValidName]
    and [scmhelpers.IsScmNotFound] of jx-helpers, [strings.ToLower] of the
    Go library. *)
Class Externals : Type := {
  naming_ToValidName : string -> string;
  scmhelpers_IsScmNotFound : option error -> bool;
  strings_ToLower : string -> string
}.

(** Modelled from the spec: the two methods of [UserDetailService], the
    type of the field [cache], whose code is not part of the sources at
    hand.  [C] is the state of the cache; [GetUser] is a pure lookup that
    returns nil on a miss, [CreateOrUpdateUser] returns the error of the
    write and the state after it. *)
Class UserCache (C : Type) : Type := {
  GetUser : C -> string -> option jenkinsv1.UserDetails;
  CreateOrUpdateUser : C -> jenkinsv1.UserDetails -> option error * C
}.

(** The platform client [*scm.Client] and its [Users] service.  [P] is the
    state of a non-nil client.  [FindLogin p login] is the call
    [p.Users.FindLogin(ctx, login)]: it is [None] when the [Users] service
    of the client is nil, since calling a method of a nil interface
    panics; otherwise it returns the user, the error and the state after
    the query (the context and the raw response are not used by the
    caller). *)
Class UserService (P : Type) : Type := {
  FindLogin : P -> string -> option ((option scm.User * option error) * P)
}.

(** One entry per call to a collaborator, oldest first. *)
Inductive Event : Type :=
  | EvGetUser (key : string)
  | EvCreateOrUpdateUser (u : jenkinsv1.UserDetails)
  | EvFindLogin (login : string).

(** ** The resolver *)

Section Resolver.
Context {Client UserDetailService : Type}.
Context `{!Externals, !UserService Client, !UserCache UserDetailService}.

(** The struct [GitUserResolver]; [GitProvider] is a pointer. *)
Record GitUserResolver : Type := mkResolver {
  GitProvider : option Client;
  cache : UserDetailService
}.

(** A method of [*GitUserResolver] run on a receiver [r] ([None] is the
    nil receiver): [None] when the method dereferences a nil pointer
    (a Go panic), else the returned value, the receiver afterwards and
    the calls made. *)
Definition Eff (A : Type) : Type :=
  option GitUserResolver -> option (A * option GitUserResolver * list Event).

Definition ret {A} (a : A) : Eff A := fun r => Some (a, r, []).

Definition bind {A B} (m : Eff A) (k : A -> Eff B) : Eff B :=
  fun r =>
    match m r with
    | None => None
    | Some (a, r1, t1) =>
        match k a r1 with
        | None => None
        | Some (b, r2, t2) => Some (b, r2, t1 ++ t2)
        end
    end.

Definition panic {A} : Eff A := fun _ => None.

(** The receiver pointer itself, for the test [r == nil]. *)
Definition receiver : Eff (option GitUserResolver) := fun r => Some (r, r, []).

(** [r.cache.GetUser(key)] *)
Definition cache_GetUser (key : string) : Eff (option jenkinsv1.UserDetails) :=
  fun r =>
    match r with
    | None => None
    | Some s => Some (GetUser (cache s) key, r, [EvGetUser key])
    end.

(** [r.cache.CreateOrUpdateUser(u)] *)
Definition cache_CreateOrUpdateUser (u : jenkinsv1.UserDetails)
  : Eff (option error) :=
  fun r =>
    match r with
    | None => None
    | Some s =>
        let '(err, c) := CreateOrUpdateUser (cache s) u in
        Some (err, Some (mkResolver (GitProvider s) c), [EvCreateOrUpdateUser u])
    end.

(** [r.GitProvider.Users.FindLogin(ctx, login)]: two dereferences, of the
    pointer [r.GitProvider] and of the interface [Users]; either one
    panics when nil. *)
Definition Users_FindLogin (login : string)
  : Eff (option scm.User * option error) :=
  fun r =>
    match r with
    | None => None
    | Some s =>
        match GitProvider s with
        | None => None
        | Some p =>
            match FindLogin p login with
            | None => None
            | Some (reply, p1) =>
                Some (reply, Some (mkResolver (Some p1) (cache s)),
                      [EvFindLogin login])
            end
        end
    end.

Notation "x <- m ;; k" := (bind m (fun x => k))
  (at level 100, m at next level, right associativity).

(** What [Resolve] returns: a [*jenkinsv1.UserDetails] and an [error]. *)
Definition Resolved : Type := option jenkinsv1.UserDetails * option error.

(** [GitUserToUser] *)
Definition GitUserToUser (gitUser : scm.User) : jenkinsv1.UserDetails :=
  {| jenkinsv1.Login := scm.Login gitUser;
     jenkinsv1.Name := scm.Name gitUser;
     jenkinsv1.Email := scm.Email gitUser |}.

(** The name under which [Resolve] records a platform user (its lines
    87 to 93), named for the statements below. *)
Definition canonical_id (scmUser : scm.User) : string :=
  let login := scm.Login scmUser in
  let login :=
    if String.eqb login ""
    then strings_ToLower (strings_Replace (scm.Name scmUser) " " "-")
    else login in
  let id := naming_ToValidName login in
  naming_ToValidName id.

(** [Resolve] *)
Definition Resolve (user : option scm.User) : Eff Resolved :=
  r <- receiver ;;
  match r, user with
  | None, _ | _, None => ret (None, None)
  | Some _, Some user =>
      if String.eqb (scm.Name user) "" then ret (None, None) else
      u <- cache_GetUser (scm.Name user) ;;
      match u with
      | Some u => ret (Some u, None)
      | None =>
          if String.eqb (scm.Login user) "" then
            let u := GitUserToUser user in
            err <- cache_CreateOrUpdateUser u ;;
            match err with
            | Some _ => ret (Some u, errors_Wrapf err "failed to cache User")
            | None => ret (Some u, None)
            end
          else
            found <- Users_FindLogin (scm.Login user) ;;
            let '(scmUser, err) := found in
            match scmUser with
            | None => ret (None, None)
            | Some scmUser =>
                if scmhelpers_IsScmNotFound err then ret (None, None) else
                match err with
                | Some _ =>
                    ret (None, errors_Wrapf err
                                 ("failed to find user " +:+ scm.Login user))
                | None =>
                    let u := GitUserToUser scmUser in
                    let login := scm.Login scmUser in
                    let login :=
                      if String.eqb login ""
                      then strings_ToLower (strings_Replace (scm.Name scmUser) " " "-")
                      else login in
                    let id := naming_ToValidName login in
                    let u :=
                      {| jenkinsv1.Login := jenkinsv1.Login u;
                         jenkinsv1.Name := naming_ToValidName id;
                         jenkinsv1.Email := jenkinsv1.Email u |} in
                    err <- cache_CreateOrUpdateUser u ;;
                    match err with
                    | Some _ => ret (None, errors_Wrapf err "failed to create User")
                    | None => ret (Some u, None)
                    end
                end
            end
      end
  end.

(** [GitSignatureAsUser]; reading a field of a nil signature panics. *)
Definition GitSignatureAsUser (signature : option object.Signature)
  : Eff Resolved :=
  match signature with
  | None => panic
  | Some signature =>
      if String.eqb (object.Name signature) ""
         && String.eqb (object.Email signature) ""
      then ret (None, None)
      else
        let gitUser :=
          {| scm.Login := ""; scm.Name := object.Name signature;
             scm.Email := object.Email signature;
             scm.Link := ""; scm.Avatar := "" |} in
        Resolve (Some gitUser)
  end.

(** The loop of [GitUserSliceAsUserDetailsSlice] over the users still to
    resolve, with the slice [answer] built so far (a nil slice is the
    empty list). *)
Fixpoint resolve_loop (users : list scm.User) (answer : list jenkinsv1.UserDetails)
  : Eff (list jenkinsv1.UserDetails * option error) :=
  match users with
  | [] => ret (answer, None)
  | user :: rest =>
      resolved <- Resolve (Some user) ;;
      let '(u, err) := resolved in
      match err with
      | Some _ => ret ([], err)
      | None =>
          resolve_loop rest
            match u with
            | Some u => answer ++ [u]
            | None => answer
            end
      end
  end.

(** [GitUserSliceAsUserDetailsSlice] *)
Definition GitUserSliceAsUserDetailsSlice (users : list scm.User)
  : Eff (list jenkinsv1.UserDetails * option error) :=
  resolve_loop users [].

(** Each user resolved in turn on the same receiver, every outcome kept:
    the reference against which the batch is stated. *)
Fixpoint resolve_each (users : list scm.User) : Eff (list Resolved) :=
  match users with
  | [] => ret []
  | user :: rest =>
      x <- Resolve (Some user) ;;
      xs <- resolve_each rest ;;
      ret (x :: xs)
  end.

End Resolver.

Arguments GitUserResolver : clear implicits.
Arguments mkResolver {Client UserDetailService}.

(** ** Assumptions on the collaborators *)

(** Modelled from the spec: [UserDetailService.CreateOrUpdateUser], whose
    code is not part of the sources at hand, is an upsert keyed by the
    record's key, which is the [Name] field of [jenkinsv1.UserDetails]:
    after a write that reports no error, [GetUser] finds the record under
    its [Name] and every other key reads as before. *)
Definition upsert_by_name (C : Type) `{!UserCache C} : Prop :=
  forall (c c' : C) (u : jenkinsv1.UserDetails),
    CreateOrUpdateUser c u = (None, c') ->
    GetUser c' (jenkinsv1.Name u) = Some u /\
    forall key, key <> jenkinsv1.Name u -> GetUser c' key = GetUser c key.

(** The name sanitizer is idempotent (what the spec requires of it). *)
Definition sanitizer_idempotent `{!Externals} : Prop :=
  forall s, naming_ToValidName (naming_ToValidName s) = naming_ToValidName s.

(** ** Collaborators to run the resolver on *)

(** Modelled from the spec: [UserDetailService] as a key-value store of
    records keyed by their [Name], held in memory; [storage_fault] is the
    error of the backing store, reported by every write while it is set. *)
Record MemoryStore : Type := mkStore {
  records : gmap string jenkinsv1.UserDetails;
  storage_fault : option error
}.

#[global] Instance MemoryStore_cache : UserCache MemoryStore := {|
  GetUser c key := records c !! key;
  CreateOrUpdateUser c u :=
    match storage_fault c with
    | Some e => (Some e, c)
    | None => (None, mkStore (<[jenkinsv1.Name u := u]> (records c)) None)
    end
|}.

(** A platform directory with a fixed answer per login; its [Users]
    service is there. *)
Definition Directory : Type := string -> option scm.User * option error.

#[global] Instance Directory_service : UserService Directory := {|
  FindLogin p login := Some (p login, p)
|}.

(** A client that may lack its [Users] service: [None] is the client
    whose [Users] is nil. *)
#[global] Instance PartialClient_service : UserService (option Directory) := {|
  FindLogin p login :=
    match p with
    | None => None
    | Some d => Some (d login, Some d)
    end
|}.

Definition ascii_lower (c : Ascii.ascii) : Ascii.ascii :=
  let n := Ascii.nat_of_ascii c in
  if (65 <=? n)%nat && (n <=? 90)%nat then Ascii.ascii_of_nat (n + 32) else c.

Definition ascii_name_char (c : Ascii.ascii) : Ascii.ascii :=
  let n := Ascii.nat_of_ascii c in
  if ((97 <=? n)%nat && (n <=? 122)%nat) || ((48 <=? n)%nat && (n <=? 57)%nat)
  then c else Ascii.ascii_of_nat 45.

Fixpoint string_map (f : Ascii.ascii -> Ascii.ascii) (s : string) : string :=
  match s with
  | EmptyString => EmptyString
  | String c rest => String (f c) (string_map f rest)
  end.

Fixpoint string_contains (sub s : string) : bool :=
  String.prefix sub s ||
  match s with
  | EmptyString => false
  | String _ rest => string_contains sub rest
  end.

(** Stand-ins for the helpers of other packages, on ASCII text: names are
    lowercased and every byte that is neither a letter nor a digit becomes
    a hyphen; an error is a not-found error when its text says so. *)
#[global] Instance AsciiExternals : Externals := {|
  naming_ToValidName s := string_map ascii_name_char (string_map ascii_lower s);
  scmhelpers_IsScmNotFound err :=
    match err with
    | Some e => string_contains "Not Found" (Error e)
    | None => false
    end;
  strings_ToLower s := string_map ascii_lower s
|}.

(** A sanitizer that is not idempotent, to tell one application from two. *)
Definition MarkingExternals : Externals := {|
  naming_ToValidName s := s +:+ "!";
  scmhelpers_IsScmNotFound err := false;
  strings_ToLower s := string_map ascii_lower s
|}.

(** ** A small world: four logins on the platform, an empty cache *)

Definition bad_gateway : error := Opaque "502 Bad Gateway".
Definition disk_full : error := Opaque "disk full".

(** What the platform knows about "dave". *)
Definition dave_on_platform : scm.User :=
  scm.mkUser "dave" "Dave D" "dave@x.com" "https://example.com/dave" "".

(** "dave" is known, "carol" is reported as not found, the query for
    "erin" fails and still yields a user object, the query for "frank"
    fails and yields none; any other login yields neither user nor error. *)
Definition directory : Directory := fun login =>
  if String.eqb login "dave" then (Some dave_on_platform, None)
  else if String.eqb login "carol" then (None, Some (Opaque "Not Found"))
  else if String.eqb login "erin"
       then (Some (scm.mkUser "" "" "" "" ""), Some bad_gateway)
  else if String.eqb login "frank" then (None, Some bad_gateway)
  else (None, None).

Definition resolver0 : GitUserResolver Directory MemoryStore :=
  mkResolver (Some directory) (mkStore ∅ None).

(** The same resolver on a store whose writes fail. *)
Definition resolver_faulty : GitUserResolver Directory MemoryStore :=
  mkResolver (Some directory) (mkStore ∅ (Some disk_full)).

Definition alice_record : jenkinsv1.UserDetails :=
  jenkinsv1.mkUserDetails "alice" "alice" "alice@x.com".

(** The resolver with a record cached under "alice". *)
Definition resolver_alice : GitUserResolver Directory MemoryStore :=
  mkResolver (Some directory) (mkStore {["alice" := alice_record]} None).

Definition alice : scm.User := scm.mkUser "" "alice" "" "" "".
Definition bob : scm.User := scm.mkUser "" "bob" "bob@x.com" "" "".
Definition carol : scm.User := scm.mkUser "carol" "Carol C" "" "" "".
Definition erin : scm.User := scm.mkUser "erin" "Erin E" "" "" "".
Definition frank : scm.User := scm.mkUser "frank" "Frank F" "" "" "".

(** Two identities with the login "dave": one named by its key, one named
    as the commit author is displayed. *)
Definition dave : scm.User := scm.mkUser "dave" "dave" "" "" "".
Definition dave_displayed : scm.User := scm.mkUser "dave" "Dave D" "" "" "".

Definition bob_record : jenkinsv1.UserDetails :=
  jenkinsv1.mkUserDetails "" "bob" "bob@x.com".
Definition dave_record : jenkinsv1.UserDetails :=
  jenkinsv1.mkUserDetails "dave" "dave" "dave@x.com".

(** [resolver0] once "dave", "bob" or both have been recorded. *)
Definition resolver_dave : GitUserResolver Directory MemoryStore :=
  mkResolver (Some directory) (mkStore {["dave" := dave_record]} None).
Definition resolver_bob : GitUserResolver Directory MemoryStore :=
  mkResolver (Some directory) (mkStore {["bob" := bob_record]} None).
Definition resolver_bob_dave : GitUserResolver Directory MemoryStore :=
  mkResolver (Some directory)
    (mkStore (<["dave" := dave_record]> {["bob" := bob_record]}) None).

(** ** The conversions and the provider key *)

(** [jenkinsv1.User] as the conversions below read it: the custom resource
    whose [Spec] is the Go struct [UserDetails], here with the fields that
    [UserToGitUser] and [GitUserLogin] read. *)
Module jenkinsv1_User.
Record AccountReference : Type := mkAccount {
  Provider : string;
  ID : string
}.
Record UserSpec : Type := mkSpec {
  Name : string;
  Email : string;
  URL : string;
  AvatarURL : string;
  Accounts : list AccountReference
}.
Record User : Type := mkUser {
  Spec : UserSpec
}.
End jenkinsv1_User.

(** [r.GitProvider.Driver.String()]: the name of the driver of a client,
    a function of go-scm taken as it is. *)
Class ClientDriver (P : Type) : Type := {
  Driver_String : P -> string
}.

Section Conversions.
Context {Client UserDetailService : Type} `{!ClientDriver Client}.

(** [GitProviderKey] *)
Definition GitProviderKey (r : option (GitUserResolver Client UserDetailService))
  : string :=
  match r with
  | None => ""
  | Some s =>
      match GitProvider s with
      | None => ""
      | Some p => "jenkins.io/git-" +:+ Driver_String p +:+ "-userid"
      end
  end.

(** The loop of [GitUserLogin] over the accounts still to test. *)
Fixpoint first_account (r : option (GitUserResolver Client UserDetailService))
    (accounts : list jenkinsv1_User.AccountReference) : string :=
  match accounts with
  | [] => ""
  | a :: rest =>
      if String.eqb (jenkinsv1_User.Provider a) (GitProviderKey r)
      then jenkinsv1_User.ID a
      else first_account r rest
  end.

(** [GitUserLogin]; reading the accounts of a nil user panics ([None]). *)
Definition GitUserLogin (r : option (GitUserResolver Client UserDetailService))
    (user : option jenkinsv1_User.User) : option string :=
  match user with
  | None => None
  | Some user =>
      Some (first_account r (jenkinsv1_User.Accounts (jenkinsv1_User.Spec user)))
  end.

(** [UserToGitUser]; the receiver is not read, a nil user panics. *)
Definition UserToGitUser (id : string) (user : option jenkinsv1_User.User)
  : option scm.User :=
  match user with
  | None => None
  | Some user =>
      Some {| scm.Login := id;
              scm.Email := jenkinsv1_User.Email (jenkinsv1_User.Spec user);
              scm.Name := jenkinsv1_User.Name (jenkinsv1_User.Spec user);
              scm.Link := jenkinsv1_User.URL (jenkinsv1_User.Spec user);
              scm.Avatar := jenkinsv1_User.AvatarURL (jenkinsv1_User.Spec user) |}
  end.

End Conversions.

(** The driver of a [Directory] used below is GitHub's. *)
#[global] Instance Directory_driver : ClientDriver Directory := {|
  Driver_String _ := "github"
|}.

(** A user resource with accounts on two platforms and one account that
    names no provider. *)
Definition erin_resource : jenkinsv1_User.User :=
  jenkinsv1_User.mkUser
    (jenkinsv1_User.mkSpec "Erin E" "erin@x.com" "https://example.com/erin" ""
       [jenkinsv1_User.mkAccount "jenkins.io/git-gitlab-userid" "erin-gl";
        jenkinsv1_User.mkAccount "" "erin-anon";
        jenkinsv1_User.mkAccount "jenkins.io/git-github-userid" "erin-gh";
        jenkinsv1_User.mkAccount "jenkins.io/git-github-userid" "erin-gh-2"]).

(** A resolver without platform client. *)
Definition resolver_no_client : GitUserResolver Directory MemoryStore :=
  mkResolver None (mkStore ∅ None).

(** A platform that knows "grace" by her display name only: the user it
    returns has no login. *)
Definition grace_on_platform : scm.User :=
  scm.mkUser "" "Grace B Hopper" "grace@x.com" "" "".
Definition directory_grace : Directory := fun login =>
  if String.eqb login "grace" then (Some grace_on_platform, None) else (None, None).
Definition resolver_grace : GitUserResolver Directory MemoryStore :=
  mkResolver (Some directory_grace) (mkStore ∅ None).
Definition grace : scm.User := scm.mkUser "grace" "Grace Hopper" "" "" "".

(** A resolver whose platform client has no [Users] service. *)
Definition resolver_no_users : GitUserResolver (option Directory) MemoryStore :=
  mkResolver (Some None) (mkStore ∅ None).

(** The resolver that knows "bob" and "dave" and has lost its client. *)
Definition resolver_offline : GitUserResolver Directory MemoryStore :=
  mkResolver None (mkStore (<["dave" := dave_record]> {["bob" := bob_record]}) None).

(** A user resource without account on GitHub. *)
Definition carol_resource : jenkinsv1_User.User :=
  jenkinsv1_User.mkUser
    (jenkinsv1_User.mkSpec "Carol C" "carol@x.com" "" ""
       [jenkinsv1_User.mkAccount "jenkins.io/git-gitlab-userid" "carol-gl";
        jenkinsv1_User.mkAccount "" "carol-anon"]).

(** ** The runs of [Resolve], branch by branch *)

Section Runs.
Context {Client UserDetailService : Type}.
Context `{!Externals, !UserService Client, !UserCache UserDetailService}.

(** [ResolveRun s user res r' t]: on the resolver [s] and the identity
    [user], [Resolve] returns [res], leaves the receiver [r'] and makes
    the calls [t].  One constructor per return statement of the source
    (two for line 80, whose test is a disjunction). *)
Inductive ResolveRun (s : GitUserResolver Client UserDetailService) (user : scm.User)
  : Resolved -> option (GitUserResolver Client UserDetailService) -> list Event -> Prop :=
  | run_anonymous :
      scm.Name user = "" ->
      ResolveRun s user (None, None) (Some s) []
  | run_cached u :
      scm.Name user <> "" ->
      GetUser (cache s) (scm.Name user) = Some u ->
      ResolveRun s user (Some u, None) (Some s) [EvGetUser (scm.Name user)]
  | run_synthesized err c :
      scm.Name user <> "" ->
      GetUser (cache s) (scm.Name user) = None ->
      scm.Login user = "" ->
      CreateOrUpdateUser (cache s) (GitUserToUser user) = (err, c) ->
      ResolveRun s user
        (Some (GitUserToUser user), errors_Wrapf err "failed to cache User")
        (Some (mkResolver (GitProvider s) c))
        [EvGetUser (scm.Name user); EvCreateOrUpdateUser (GitUserToUser user)]
  | run_no_user p err p1 :
      scm.Name user <> "" ->
      GetUser (cache s) (scm.Name user) = None ->
      scm.Login user <> "" ->
      GitProvider s = Some p ->
      FindLogin p (scm.Login user) = Some ((None, err), p1) ->
      ResolveRun s user (None, None) (Some (mkResolver (Some p1) (cache s)))
        [EvGetUser (scm.Name user); EvFindLogin (scm.Login user)]
  | run_not_found p scmUser err p1 :
      scm.Name user <> "" ->
      GetUser (cache s) (scm.Name user) = None ->
      scm.Login user <> "" ->
      GitProvider s = Some p ->
      FindLogin p (scm.Login user) = Some ((Some scmUser, err), p1) ->
      scmhelpers_IsScmNotFound err = true ->
      ResolveRun s user (None, None) (Some (mkResolver (Some p1) (cache s)))
        [EvGetUser (scm.Name user); EvFindLogin (scm.Login user)]
  | run_query_failed p scmUser e p1 :
      scm.Name user <> "" ->
      GetUser (cache s) (scm.Name user) = None ->
      scm.Login user <> "" ->
      GitProvider s = Some p ->
      FindLogin p (scm.Login user) = Some ((Some scmUser, Some e), p1) ->
      scmhelpers_IsScmNotFound (Some e) = false ->
      ResolveRun s user
        (None, Some (WithMessage e ("failed to find user " +:+ scm.Login user)))
        (Some (mkResolver (Some p1) (cache s)))
        [EvGetUser (scm.Name user); EvFindLogin (scm.Login user)]
  | run_write_failed p scmUser p1 e c :
      scm.Name user <> "" ->
      GetUser (cache s) (scm.Name user) = None ->
      scm.Login user <> "" ->
      GitProvider s = Some p ->
      FindLogin p (scm.Login user) = Some ((Some scmUser, None), p1) ->
      scmhelpers_IsScmNotFound None = false ->
      CreateOrUpdateUser (cache s)
        (jenkinsv1.mkUserDetails (scm.Login scmUser) (canonical_id scmUser)
           (scm.Email scmUser)) = (Some e, c) ->
      ResolveRun s user (None, Some (WithMessage e "failed to create User"))
        (Some (mkResolver (Some p1) c))
        [EvGetUser (scm.Name user); EvFindLogin (scm.Login user);
         EvCreateOrUpdateUser
           (jenkinsv1.mkUserDetails (scm.Login scmUser) (canonical_id scmUser)
              (scm.Email scmUser))]
  | run_recorded p scmUser p1 c :
      scm.Name user <> "" ->
      GetUser (cache s) (scm.Name user) = None ->
      scm.Login user <> "" ->
      GitProvider s = Some p ->
      FindLogin p (scm.Login user) = Some ((Some scmUser, None), p1) ->
      scmhelpers_IsScmNotFound None = false ->
      CreateOrUpdateUser (cache s)
        (jenkinsv1.mkUserDetails (scm.Login scmUser) (canonical_id scmUser)
           (scm.Email scmUser)) = (None, c) ->
      ResolveRun s user
        (Some (jenkinsv1.mkUserDetails (scm.Login scmUser) (canonical_id scmUser)
                 (scm.Email scmUser)), None)
        (Some (mkResolver (Some p1) c))
        [EvGetUser (scm.Name user); EvFindLogin (scm.Login user);
         EvCreateOrUpdateUser
           (jenkinsv1.mkUserDetails (scm.Login scmUser) (canonical_id scmUser)
              (scm.Email scmUser))].

End Runs.

Example strings_Replace_spaces :
  strings_Replace "Dave  D Smith" " " "-" = "Dave--D-Smith".
Proof. reflexivity. Qed.

Example strings_Replace_longer_old :
  strings_Replace "aaaa-aa" "aa" "b" = "bb-b".
Proof. reflexivity. Qed.

Example canonical_id_login :
  canonical_id (scm.mkUser "Dave" "Dave D" "dave@x.com" "" "") = "dave".
Proof. reflexivity. Qed.

Example canonical_id_no_login :
  canonical_id (scm.mkUser "" "Dave D Smith" "dave@x.com" "" "") = "dave-d-smith".
Proof. reflexivity. Qed.

Example canonical_id_sanitizes_twice :
  @canonical_id MarkingExternals (scm.mkUser "dave" "Dave D" "" "" "") = "dave!!".
Proof. reflexivity. Qed.

(** ** Properties of [Resolve] *)

Section Properties.
Context {Client UserDetailService : Type}.
Context `{!Externals, !UserService Client, !UserCache UserDetailService}.

Implicit Types (s : GitUserResolver Client UserDetailService).
Implicit Types (user scmUser : scm.User) (u : jenkinsv1.UserDetails).
Implicit Types (e : error) (p : Client) (c : UserDetailService).

Lemma eqb_empty_false (x : string) : x <> "" -> String.eqb x "" = false.
Proof. intros Hx. by apply String.eqb_neq. Qed.

(** [strings.Replace(s, " ", "-", -1)] turns each space of [s] into a
    hyphen and keeps every other byte. *)
Lemma strings_Replace_hyphenate (x : string) :
  strings_Replace x " " "-" = hyphenate x.
Proof.
  unfold strings_Replace. induction x as [|c x IH]; [done|].
  cbn [replace_from hyphenate String.prefix String.length Nat.sub].
  destruct (Ascii.ascii_dec _ c) as [Heq|Hc].
  - subst c. rewrite IH.
    replace (String.prefix "" x) with true by (by destruct x). reflexivity.
  - rewrite IH. destruct (Ascii.eqb_spec c ascii_space) as [Heq|_]; [|done].
    destruct Hc. symmetry. exact Heq.
Qed.

(** Unfolds one run of the resolver down to the calls it makes. *)
Ltac run_resolver :=
  unfold Resolve, GitSignatureAsUser, bind, receiver, ret, panic,
    cache_GetUser, cache_CreateOrUpdateUser, Users_FindLogin; simpl.

(** The shape of every run that reaches the platform query: the name is
    known, the cache has no entry for it and there is a login. *)
Lemma Resolve_queries_platform s p user found p' :
  scm.Name user <> "" ->
  GetUser (cache s) (scm.Name user) = None ->
  scm.Login user <> "" ->
  GitProvider s = Some p ->
  FindLogin p (scm.Login user) = Some (found, p') ->
  Resolve (Some user) (Some s) =
    match found with
    | (None, _) =>
        Some ((None, None), Some (mkResolver (Some p') (cache s)),
              [EvGetUser (scm.Name user); EvFindLogin (scm.Login user)])
    | (Some scmUser, err) =>
        if scmhelpers_IsScmNotFound err
        then Some ((None, None), Some (mkResolver (Some p') (cache s)),
                   [EvGetUser (scm.Name user); EvFindLogin (scm.Login user)])
        else
          match err with
          | Some e =>
              Some ((None,
                     Some (WithMessage e ("failed to find user " +:+ scm.Login user))),
                    Some (mkResolver (Some p') (cache s)),
                    [EvGetUser (scm.Name user); EvFindLogin (scm.Login user)])
          | None =>
              let u := jenkinsv1.mkUserDetails (scm.Login scmUser)
                         (canonical_id scmUser) (scm.Email scmUser) in
              let w := CreateOrUpdateUser (cache s) u in
              Some ((match w.1 with Some _ => None | None => Some u end,
                     errors_Wrapf w.1 "failed to create User"),
                    Some (mkResolver (Some p') w.2),
                    [EvGetUser (scm.Name user); EvFindLogin (scm.Login user);
                     EvCreateOrUpdateUser u])
          end
    end.
Proof.
  intros Hname Hmiss Hlogin Hp Hfind. run_resolver.
  rewrite (eqb_empty_false _ Hname), Hmiss, (eqb_empty_false _ Hlogin), Hp, Hfind.
  destruct found as [[scmUser|] err]; simpl; [|done].
  destruct (scmhelpers_IsScmNotFound err); [done|].
  destruct err as [e|]; simpl; [done|].
  destruct (CreateOrUpdateUser _ _) as [[e|] c']; done.
Qed.

(** The shape of every run on an identity without login whose name the
    cache does not know. *)
Lemma Resolve_without_login s user :
  scm.Name user <> "" ->
  GetUser (cache s) (scm.Name user) = None ->
  scm.Login user = "" ->
  let u := jenkinsv1.mkUserDetails "" (scm.Name user) (scm.Email user) in
  let w := CreateOrUpdateUser (cache s) u in
  Resolve (Some user) (Some s) =
    Some ((Some u, errors_Wrapf w.1 "failed to cache User"),
          Some (mkResolver (GitProvider s) w.2),
          [EvGetUser (scm.Name user); EvCreateOrUpdateUser u]).
Proof.
  intros Hname Hmiss Hlogin. run_resolver.
  rewrite (eqb_empty_false _ Hname), Hmiss, Hlogin. simpl.
  unfold GitUserToUser. rewrite Hlogin.
  destruct (CreateOrUpdateUser _ _) as [[e|] c']; done.
Qed.

(** The shape of every run that finds the name in the cache. *)
Lemma Resolve_cache_hit_shape s user u :
  scm.Name user <> "" ->
  GetUser (cache s) (scm.Name user) = Some u ->
  Resolve (Some user) (Some s) =
    Some ((Some u, None), Some s, [EvGetUser (scm.Name user)]).
Proof.
  intros Hname Hhit. run_resolver.
  by rewrite (eqb_empty_false _ Hname), Hhit.
Qed.

(** C5. When the identity has a name and the cache holds a record under
    that name, [Resolve] returns that record and no error; the only call
    it makes is the cache lookup, so the platform is not queried and the
    cache is not written, and the resolver is left as it was. *)
Theorem Resolve_cache_hit s user u :
  scm.Name user <> "" ->
  GetUser (cache s) (scm.Name user) = Some u ->
  Resolve (Some user) (Some s) =
    Some ((Some u, None), Some s, [EvGetUser (scm.Name user)]).
Proof. apply Resolve_cache_hit_shape. Qed.

(** C7. For an identity without login whose name is not empty and not
    in the cache, [Resolve] returns the record with an empty login and
    the name and email of the input; it writes exactly that record to
    the cache, whose key, the record's [Name], is the input name as it
    is (no sanitization); and when the write succeeds on a cache that
    upserts by name, the cache holds the record under the input name. *)
Theorem Resolve_no_login_record s user :
  scm.Login user = "" ->
  scm.Name user <> "" ->
  GetUser (cache s) (scm.Name user) = None ->
  let u := jenkinsv1.mkUserDetails "" (scm.Name user) (scm.Email user) in
  let w := CreateOrUpdateUser (cache s) u in
  Resolve (Some user) (Some s) =
    Some ((Some u, errors_Wrapf w.1 "failed to cache User"),
          Some (mkResolver (GitProvider s) w.2),
          [EvGetUser (scm.Name user); EvCreateOrUpdateUser u]) /\
  jenkinsv1.Name u = scm.Name user /\
  (upsert_by_name UserDetailService -> w.1 = None ->
   errors_Wrapf w.1 "failed to cache User" = None /\
   GetUser w.2 (scm.Name user) = Some u).
Proof.
  intros Hlogin Hname Hmiss u w. split; [|split; [done|]].
  - by apply Resolve_without_login.
  - intros Hupsert Hok. rewrite Hok. split; [done|].
    destruct (Hupsert (cache s) w.2 u) as [Hget _]; [|done].
    rewrite <- Hok. apply surjective_pairing.
Qed.

(** C8. For an identity with a name that is not in the cache and with a
    login, when the platform returns no user or an error classified as
    not-found, [Resolve] returns a nil record and a nil error; the calls
    are the cache lookup and the platform query, and the cache is left
    as it was. *)
Theorem Resolve_not_found s p user found p' :
  scm.Name user <> "" ->
  GetUser (cache s) (scm.Name user) = None ->
  scm.Login user <> "" ->
  GitProvider s = Some p ->
  FindLogin p (scm.Login user) = Some (found, p') ->
  found.1 = None \/ scmhelpers_IsScmNotFound found.2 = true ->
  Resolve (Some user) (Some s) =
    Some ((None, None), Some (mkResolver (Some p') (cache s)),
          [EvGetUser (scm.Name user); EvFindLogin (scm.Login user)]).
Proof.
  intros Hname Hmiss Hlogin Hp Hfind Hnone.
  rewrite (Resolve_queries_platform s p user found p') by done.
  destruct found as [[scmUser|] err]; simpl in *; [|done].
  destruct Hnone as [Hn | Hn]; [done | by rewrite Hn].
Qed.

(** C1 (amended). For an identity with a name that is not in the cache
    and with a login, when the platform returns a user together with an
    error that is not classified as not-found, [Resolve] returns a nil
    record and that error wrapped with "failed to find user {login}";
    the cache is not written. *)
Theorem Resolve_query_failure s p user scmUser e p' :
  scm.Name user <> "" ->
  GetUser (cache s) (scm.Name user) = None ->
  scm.Login user <> "" ->
  GitProvider s = Some p ->
  FindLogin p (scm.Login user) = Some ((Some scmUser, Some e), p') ->
  scmhelpers_IsScmNotFound (Some e) = false ->
  Resolve (Some user) (Some s) =
    Some ((None, Some (WithMessage e ("failed to find user " +:+ scm.Login user))),
          Some (mkResolver (Some p') (cache s)),
          [EvGetUser (scm.Name user); EvFindLogin (scm.Login user)]).
Proof.
  intros Hname Hmiss Hlogin Hp Hfind Hclass.
  rewrite (Resolve_queries_platform s p user _ p') by done.
  simpl. by rewrite Hclass.
Qed.

(** C6. On the login path (the platform returned a user and no error),
    the key is the login of the returned user or, when that is empty,
    its display name with each space turned into a hyphen and then
    lowercased; the chosen text goes through the name sanitizer twice.
    The record written to the cache carries that key as its [Name], and
    so does the record [Resolve] returns, when it returns one. *)
Theorem Resolve_canonical_key s p user scmUser p' :
  scm.Name user <> "" ->
  GetUser (cache s) (scm.Name user) = None ->
  scm.Login user <> "" ->
  GitProvider s = Some p ->
  FindLogin p (scm.Login user) = Some ((Some scmUser, None), p') ->
  scmhelpers_IsScmNotFound None = false ->
  let chosen :=
    if String.eqb (scm.Login scmUser) ""
    then strings_ToLower (hyphenate (scm.Name scmUser))
    else scm.Login scmUser in
  let key := naming_ToValidName (naming_ToValidName chosen) in
  exists result r',
    Resolve (Some user) (Some s) =
      Some (result, r',
            [EvGetUser (scm.Name user); EvFindLogin (scm.Login user);
             EvCreateOrUpdateUser
               (jenkinsv1.mkUserDetails (scm.Login scmUser) key (scm.Email scmUser))]) /\
    forall u, result.1 = Some u -> jenkinsv1.Name u = key.
Proof.
  intros Hname Hmiss Hlogin Hp Hfind Hclass chosen key.
  rewrite (Resolve_queries_platform s p user _ p') by done.
  assert (Hkey : canonical_id scmUser = key)
    by (unfold canonical_id, key, chosen; by rewrite strings_Replace_hyphenate).
  simpl. rewrite Hclass, Hkey. do 2 eexists. split; [reflexivity|].
  simpl. intros u. destruct (CreateOrUpdateUser _ _).1; [done|].
  by intros [= <-].
Qed.

(** C9. On the login path, when the cache write succeeds, the returned
    record keeps the login and the email of the platform user, while its
    [Name] is the sanitized key: with a non-empty platform login the
    [Name] is computed from the login alone, so the display name of the
    platform user is not in the record. *)
Theorem Resolve_login_record s p user scmUser p' c' :
  scm.Name user <> "" ->
  GetUser (cache s) (scm.Name user) = None ->
  scm.Login user <> "" ->
  GitProvider s = Some p ->
  FindLogin p (scm.Login user) = Some ((Some scmUser, None), p') ->
  scmhelpers_IsScmNotFound None = false ->
  CreateOrUpdateUser (cache s)
    (jenkinsv1.mkUserDetails (scm.Login scmUser) (canonical_id scmUser)
       (scm.Email scmUser)) = (None, c') ->
  exists u,
    Resolve (Some user) (Some s) =
      Some ((Some u, None), Some (mkResolver (Some p') c'),
            [EvGetUser (scm.Name user); EvFindLogin (scm.Login user);
             EvCreateOrUpdateUser u]) /\
    jenkinsv1.Login u = scm.Login scmUser /\
    jenkinsv1.Email u = scm.Email scmUser /\
    jenkinsv1.Name u = canonical_id scmUser /\
    (scm.Login scmUser <> "" ->
     jenkinsv1.Name u = naming_ToValidName (naming_ToValidName (scm.Login scmUser))).
Proof.
  intros Hname Hmiss Hlogin Hp Hfind Hclass Hwrite.
  rewrite (Resolve_queries_platform s p user _ p') by done.
  simpl. rewrite Hclass, Hwrite. simpl. eexists. split; [reflexivity|].
  repeat split. intros Hl. unfold canonical_id.
  by rewrite (eqb_empty_false _ Hl).
Qed.


(** C10. For a signature with an empty name and a non-empty email, the
    short-circuit test of [GitSignatureAsUser] (both fields empty) is
    false, and the call still returns a nil record and a nil error on
    any receiver, with no call to the cache or to the platform: the
    guard of [Resolve] rejects the empty name. *)
Theorem GitSignatureAsUser_empty_name (signature : object.Signature)
    (r : option (GitUserResolver Client UserDetailService)) :
  object.Name signature = "" ->
  object.Email signature <> "" ->
  String.eqb (object.Name signature) "" && String.eqb (object.Email signature) ""
    = false /\
  GitSignatureAsUser (Some signature) r = Some ((None, None), r, []).
Proof.
  intros Hname Hemail. run_resolver.
  rewrite Hname, (eqb_empty_false _ Hemail). simpl.
  split; [done|]. by destruct r.
Qed.

(** C2 (amended). Take an identity with login "dave" whose name is the
    sanitized form of "dave" (not empty, not in the cache), a platform
    that returns login "dave", name "Dave D", email "dave@x.com", an
    idempotent sanitizer and a cache that upserts by name and accepts
    the write.  Then [Resolve] returns the record whose [Name] is the
    sanitized form of "dave" and the cache holds it under that key; a
    second [Resolve] of the same identity returns that same record, so
    the same key, and its only call is the cache lookup: the platform
    is not queried again. *)
Theorem Resolve_dave_cached s p p' user link avatar c' :
  let dave := scm.mkUser "dave" "Dave D" "dave@x.com" link avatar in
  let u := jenkinsv1.mkUserDetails "dave" (naming_ToValidName "dave") "dave@x.com" in
  let s1 := mkResolver (Some p') c' in
  sanitizer_idempotent ->
  upsert_by_name UserDetailService ->
  scmhelpers_IsScmNotFound None = false ->
  scm.Login user = "dave" ->
  scm.Name user = naming_ToValidName "dave" ->
  scm.Name user <> "" ->
  GetUser (cache s) (scm.Name user) = None ->
  GitProvider s = Some p ->
  FindLogin p "dave" = Some ((Some dave, None), p') ->
  CreateOrUpdateUser (cache s) u = (None, c') ->
  Resolve (Some user) (Some s) =
    Some ((Some u, None), Some s1,
          [EvGetUser (scm.Name user); EvFindLogin "dave"; EvCreateOrUpdateUser u]) /\
  GetUser (cache s1) (naming_ToValidName "dave") = Some u /\
  Resolve (Some user) (Some s1) =
    Some ((Some u, None), Some s1, [EvGetUser (scm.Name user)]).
Proof.
  intros dave u s1 Hidem Hupsert Hclass Hlogin Hkey Hname Hmiss Hp Hfind Hwrite.
  assert (Hid : canonical_id dave = naming_ToValidName "dave")
    by (unfold canonical_id; simpl; apply Hidem).
  assert (Hheld : GetUser c' (naming_ToValidName "dave") = Some u)
    by (destruct (Hupsert _ _ _ Hwrite) as [Hget _]; exact Hget).
  split; [|split; [exact Hheld|]].
  - rewrite (Resolve_queries_platform s p user (Some dave, None) p');
      [|done|done|by rewrite Hlogin|done|by rewrite Hlogin].
    simpl. rewrite Hclass, Hlogin, Hid. fold u. by rewrite Hwrite.
  - apply Resolve_cache_hit_shape; [done|]. simpl. by rewrite Hkey.
Qed.

(** The batch loop on a list whose every resolution is free of error. *)
Lemma resolve_loop_all users :
  forall answer r outs r1 t1,
    resolve_each users r = Some (outs, r1, t1) ->
    Forall (fun x : Resolved => x.2 = None) outs ->
    resolve_loop users answer r = Some ((answer ++ omap fst outs, None), r1, t1).
Proof.
  induction users as [|user rest IH]; intros answer r outs r1 t1 Hrun Hok.
  - injection Hrun as <- <- <-. simpl. by rewrite app_nil_r.
  - simpl in *. unfold bind in *.
    destruct (Resolve (Some user) r) as [[[[x err] r2] t2]|]; [|done].
    destruct (resolve_each rest r2) as [[[xs r3] t3]|] eqn:Hrest; [|done].
    simpl in Hrun. injection Hrun as <- <- <-.
    apply Forall_cons in Hok as [Hx Hxs]. simpl in Hx. subst err.
    rewrite (IH _ _ _ _ _ Hrest Hxs), app_nil_r.
    destruct x as [u|]; simpl; [|done]. by rewrite <- app_assoc.
Qed.

(** The batch loop on a list whose first failing resolution is that of
    [user], after the error-free resolutions of [pre]. *)
Lemma resolve_loop_first_error pre :
  forall answer r outs r1 t1 user post x e r2 t2,
    resolve_each pre r = Some (outs, r1, t1) ->
    Forall (fun x : Resolved => x.2 = None) outs ->
    Resolve (Some user) r1 = Some ((x, Some e), r2, t2) ->
    resolve_loop (pre ++ user :: post) answer r = Some (([], Some e), r2, t1 ++ t2).
Proof.
  induction pre as [|first rest IH];
    intros answer r outs r1 t1 user post x e r2 t2 Hrun Hok Hfail.
  - injection Hrun as <- <- <-. simpl. unfold bind. rewrite Hfail. simpl.
    by rewrite app_nil_r.
  - simpl in *. unfold bind in *.
    destruct (Resolve (Some first) r) as [[[[y err] r3] t3]|]; [|done].
    destruct (resolve_each rest r3) as [[[xs r4] t4]|] eqn:Hrest; [|done].
    simpl in Hrun. injection Hrun as <- <- <-.
    apply Forall_cons in Hok as [Hy Hxs]. simpl in Hy. subst err.
    rewrite (IH _ _ _ _ _ _ post _ _ _ _ Hrest Hxs Hfail), app_nil_r.
    by rewrite <- app_assoc.
Qed.

(** C4. [GitUserSliceAsUserDetailsSlice] resolves the users in input
    order on the same resolver.  When every resolution of [users] is
    free of error, it returns the records of those that resolved to
    one, in order, leaving out the nil ones, with a nil error.  When the
    resolution of a further [user] fails, the batch over [users], [user]
    and any [post] returns that error and a nil slice: the records of
    [users] are dropped and [post] is not resolved. *)
Theorem GitUserSliceAsUserDetailsSlice_all_or_nothing
    (r r1 : option (GitUserResolver Client UserDetailService))
    (users : list scm.User) (outs : list Resolved) (t1 : list Event) :
  resolve_each users r = Some (outs, r1, t1) ->
  Forall (fun x : Resolved => x.2 = None) outs ->
  GitUserSliceAsUserDetailsSlice users r = Some ((omap fst outs, None), r1, t1) /\
  forall user post x e r2 t2,
    Resolve (Some user) r1 = Some ((x, Some e), r2, t2) ->
    GitUserSliceAsUserDetailsSlice (users ++ user :: post) r =
      Some (([], Some e), r2, t1 ++ t2).
Proof.
  intros Hrun Hok. unfold GitUserSliceAsUserDetailsSlice. split.
  - by rewrite (resolve_loop_all users [] r outs r1 t1).
  - intros user post x e r2 t2 Hfail.
    by apply (resolve_loop_first_error users [] r outs r1 t1 user post x e r2 t2).
Qed.

End Properties.

(** ** The resolver at work *)

Lemma MemoryStore_upsert_by_name : upsert_by_name MemoryStore.
Proof.
  intros c c' u. simpl. destruct (storage_fault c); [done|].
  intros [= <-]. simpl. split; [apply lookup_insert_eq|].
  intros key Hkey. by apply lookup_insert_ne.
Qed.

Lemma ascii_name_char_settled (a : Ascii.ascii) :
  ascii_name_char (ascii_lower (ascii_name_char (ascii_lower a)))
  = ascii_name_char (ascii_lower a).
Proof.
  destruct a as [[] [] [] [] [] [] [] []]; vm_compute; reflexivity.
Qed.

Lemma AsciiExternals_idempotent : @sanitizer_idempotent AsciiExternals.
Proof.
  intros x. simpl. induction x as [|a x IH]; [done|].
  simpl. by rewrite ascii_name_char_settled, IH.
Qed.

Example Resolve_bob :
  Resolve (Some bob) (Some resolver0) =
    Some ((Some bob_record, None), Some resolver_bob,
          [EvGetUser "bob"; EvCreateOrUpdateUser bob_record]).
Proof. vm_compute. reflexivity. Qed.

Example Resolve_dave :
  Resolve (Some dave) (Some resolver0) =
    Some ((Some dave_record, None), Some resolver_dave,
          [EvGetUser "dave"; EvFindLogin "dave"; EvCreateOrUpdateUser dave_record]).
Proof. vm_compute. reflexivity. Qed.

Example Resolve_nil_receiver :
  @Resolve Directory MemoryStore _ _ _ (Some dave) None = Some ((None, None), None, []).
Proof. reflexivity. Qed.

Example Resolve_nil_provider :
  Resolve (Some dave) (Some (mkResolver (@None Directory) (mkStore ∅ None))) = None.
Proof. reflexivity. Qed.

(** Cache hit: "alice" is found under her name, nothing else is called. *)
Lemma Resolve_cache_hit_alice :
  scm.Name alice <> "" /\
  GetUser (cache resolver_alice) (scm.Name alice) = Some alice_record /\
  Resolve (Some alice) (Some resolver_alice) =
    Some ((Some alice_record, None), Some resolver_alice, [EvGetUser "alice"]).
Proof.
  assert (H1 : scm.Name alice <> "") by discriminate.
  assert (H2 : GetUser (cache resolver_alice) (scm.Name alice) = Some alice_record)
    by (vm_compute; reflexivity).
  split; [exact H1|]. split; [exact H2|].
  exact (Resolve_cache_hit resolver_alice alice alice_record H1 H2).
Defined.

(** No login: "bob" is recorded under his name as given. *)
Lemma Resolve_no_login_record_bob :
  scm.Login bob = "" /\ scm.Name bob <> "" /\
  GetUser (cache resolver0) (scm.Name bob) = None /\
  Resolve (Some bob) (Some resolver0) =
    Some ((Some bob_record, None), Some resolver_bob,
          [EvGetUser "bob"; EvCreateOrUpdateUser bob_record]) /\
  GetUser (cache resolver_bob) "bob" = Some bob_record.
Proof.
  assert (H1 : scm.Login bob = "") by reflexivity.
  assert (H2 : scm.Name bob <> "") by discriminate.
  assert (H3 : GetUser (cache resolver0) (scm.Name bob) = None)
    by (vm_compute; reflexivity).
  destruct (Resolve_no_login_record resolver0 bob H1 H2 H3) as (Hrun & _ & Hheld).
  split; [exact H1|]. split; [exact H2|]. split; [exact H3|]. split.
  - etrans; [exact Hrun|]. vm_compute. reflexivity.
  - destruct (Hheld MemoryStore_upsert_by_name) as [_ Hget]; [reflexivity|].
    etrans; [|exact Hget]. vm_compute. reflexivity.
Defined.

(** Not found: "carol" resolves to nothing and the cache stays empty. *)
Lemma Resolve_not_found_carol :
  scm.Name carol <> "" /\ scm.Login carol <> "" /\
  GetUser (cache resolver0) (scm.Name carol) = None /\
  scmhelpers_IsScmNotFound (directory "carol").2 = true /\
  Resolve (Some carol) (Some resolver0) =
    Some ((None, None), Some resolver0, [EvGetUser "Carol C"; EvFindLogin "carol"]).
Proof.
  assert (H1 : scm.Name carol <> "") by discriminate.
  assert (H2 : GetUser (cache resolver0) (scm.Name carol) = None)
    by (vm_compute; reflexivity).
  assert (H3 : scm.Login carol <> "") by discriminate.
  assert (H4 : GitProvider resolver0 = Some directory) by reflexivity.
  assert (H5 : FindLogin directory (scm.Login carol) = Some (directory "carol", directory))
    by reflexivity.
  assert (H6 : scmhelpers_IsScmNotFound (directory "carol").2 = true)
    by (vm_compute; reflexivity).
  split; [exact H1|]. split; [exact H3|]. split; [exact H2|]. split; [exact H6|].
  exact (Resolve_not_found resolver0 directory carol _ directory
           H1 H2 H3 H4 H5 (or_intror H6)).
Defined.

(** A failed query that yields a user object: the error of "erin" is
    returned, wrapped. *)
Lemma Resolve_query_failure_erin :
  scm.Name erin <> "" /\ scm.Login erin <> "" /\
  GetUser (cache resolver0) (scm.Name erin) = None /\
  scmhelpers_IsScmNotFound (Some bad_gateway) = false /\
  Resolve (Some erin) (Some resolver0) =
    Some ((None, Some (WithMessage bad_gateway "failed to find user erin")),
          Some resolver0, [EvGetUser "Erin E"; EvFindLogin "erin"]).
Proof.
  assert (H1 : scm.Name erin <> "") by discriminate.
  assert (H2 : GetUser (cache resolver0) (scm.Name erin) = None)
    by (vm_compute; reflexivity).
  assert (H3 : scm.Login erin <> "") by discriminate.
  assert (H4 : GitProvider resolver0 = Some directory) by reflexivity.
  assert (H5 : FindLogin directory (scm.Login erin)
               = Some ((Some (scm.mkUser "" "" "" "" ""), Some bad_gateway), directory))
    by reflexivity.
  assert (H6 : scmhelpers_IsScmNotFound (Some bad_gateway) = false)
    by (vm_compute; reflexivity).
  split; [exact H1|]. split; [exact H3|]. split; [exact H2|]. split; [exact H6|].
  exact (Resolve_query_failure resolver0 directory erin _ bad_gateway directory
           H1 H2 H3 H4 H5 H6).
Defined.

(** C1, as stated, fails: the query for "frank" fails with an error that
    is not a not-found error and yields no user object; [Resolve] returns
    a nil record and a nil error, not the wrapped error. *)
Lemma Resolve_query_failure_without_user :
  scm.Name frank <> "" /\ scm.Login frank <> "" /\
  GetUser (cache resolver0) (scm.Name frank) = None /\
  FindLogin directory (scm.Login frank) = Some ((None, Some bad_gateway), directory) /\
  scmhelpers_IsScmNotFound (Some bad_gateway) = false /\
  Resolve (Some frank) (Some resolver0) =
    Some ((None, None), Some resolver0, [EvGetUser "Frank F"; EvFindLogin "frank"]) /\
  ~ exists r' t,
      Resolve (Some frank) (Some resolver0) =
        Some ((None, Some (WithMessage bad_gateway "failed to find user frank")), r', t).
Proof.
  repeat split; try discriminate; try (vm_compute; reflexivity).
  intros (r' & t & Hrun). vm_compute in Hrun. discriminate Hrun.
Qed.

(** The key of "grace", whom the platform returns without login: her
    display name, hyphenated, lowercased and sanitized twice.  The
    sanitizer here marks each of its applications and leaves spaces
    alone, so that the hyphens are those of the replacement. *)
Lemma Resolve_canonical_key_grace :
  scm.Name grace <> "" /\ scm.Login grace <> "" /\
  GetUser (cache resolver_grace) (scm.Name grace) = None /\
  FindLogin directory_grace (scm.Login grace)
    = Some ((Some grace_on_platform, None), directory_grace) /\
  scm.Login grace_on_platform = "" /\
  exists result r',
    @Resolve Directory MemoryStore MarkingExternals _ _ (Some grace) (Some resolver_grace) =
      Some (result, r',
            [EvGetUser "Grace Hopper"; EvFindLogin "grace";
             EvCreateOrUpdateUser
               (jenkinsv1.mkUserDetails "" "grace-b-hopper!!" "grace@x.com")]) /\
    forall u, result.1 = Some u -> jenkinsv1.Name u = "grace-b-hopper!!".
Proof.
  assert (H1 : scm.Name grace <> "") by discriminate.
  assert (H2 : GetUser (cache resolver_grace) (scm.Name grace) = None)
    by (vm_compute; reflexivity).
  assert (H3 : scm.Login grace <> "") by discriminate.
  assert (H4 : GitProvider resolver_grace = Some directory_grace) by reflexivity.
  assert (H5 : FindLogin directory_grace (scm.Login grace)
               = Some ((Some grace_on_platform, None), directory_grace))
    by reflexivity.
  assert (H6 : @scmhelpers_IsScmNotFound MarkingExternals None = false) by reflexivity.
  split; [exact H1|]. split; [exact H3|]. split; [exact H2|]. split; [exact H5|].
  split; [reflexivity|].
  exact (@Resolve_canonical_key Directory MemoryStore MarkingExternals _ _
           resolver_grace directory_grace grace grace_on_platform directory_grace
           H1 H2 H3 H4 H5 H6).
Defined.

(** The record of "dave": login and email of the platform, and the key,
    not "Dave D", as its name. *)
Lemma Resolve_login_record_dave :
  scm.Name dave_displayed <> "" /\ scm.Login dave_displayed <> "" /\
  GetUser (cache resolver0) (scm.Name dave_displayed) = None /\
  exists u,
    Resolve (Some dave_displayed) (Some resolver0) =
      Some ((Some u, None), Some resolver_dave,
            [EvGetUser "Dave D"; EvFindLogin "dave"; EvCreateOrUpdateUser u]) /\
    jenkinsv1.Login u = "dave" /\
    jenkinsv1.Email u = "dave@x.com" /\
    jenkinsv1.Name u = "dave" /\
    ("dave" <> "" -> jenkinsv1.Name u = "dave").
Proof.
  assert (H1 : scm.Name dave_displayed <> "") by discriminate.
  assert (H2 : GetUser (cache resolver0) (scm.Name dave_displayed) = None)
    by (vm_compute; reflexivity).
  assert (H3 : scm.Login dave_displayed <> "") by discriminate.
  assert (H4 : GitProvider resolver0 = Some directory) by reflexivity.
  assert (H5 : FindLogin directory (scm.Login dave_displayed)
               = Some ((Some dave_on_platform, None), directory)) by reflexivity.
  assert (H6 : scmhelpers_IsScmNotFound None = false) by reflexivity.
  assert (H7 : CreateOrUpdateUser (cache resolver0)
                 (jenkinsv1.mkUserDetails (scm.Login dave_on_platform)
                    (canonical_id dave_on_platform) (scm.Email dave_on_platform))
               = (None, cache resolver_dave)) by (vm_compute; reflexivity).
  split; [exact H1|]. split; [exact H3|]. split; [exact H2|].
  exact (Resolve_login_record resolver0 directory dave_displayed dave_on_platform
           directory (cache resolver_dave) H1 H2 H3 H4 H5 H6 H7).
Defined.


(** A signature with an email and no name resolves to nothing. *)
Lemma GitSignatureAsUser_email_only :
  GitSignatureAsUser (Some (object.mkSignature "" "ghost@x.com")) (Some resolver0)
  = Some ((None, None), Some resolver0, []).
Proof.
  assert (H1 : object.Name (object.mkSignature "" "ghost@x.com") = "") by reflexivity.
  assert (H2 : object.Email (object.mkSignature "" "ghost@x.com") <> "") by discriminate.
  exact (proj2 (GitSignatureAsUser_empty_name
                  (object.mkSignature "" "ghost@x.com") (Some resolver0) H1 H2)).
Defined.

(** A batch: "bob" and "dave" are kept and "carol", not found, is left out;
    when "erin" follows them, her error is all the batch returns, and
    "alice" after her is not looked up. *)
Lemma GitUserSliceAsUserDetailsSlice_batch :
  (exists r1 t1,
     GitUserSliceAsUserDetailsSlice [bob; carol; dave] (Some resolver0) =
       Some (([bob_record; dave_record], None), r1, t1)) /\
  (exists r2,
     GitUserSliceAsUserDetailsSlice [bob; carol; dave; erin; alice] (Some resolver0) =
       Some (([], Some (WithMessage bad_gateway "failed to find user erin")), r2,
             [EvGetUser "bob"; EvCreateOrUpdateUser bob_record;
              EvGetUser "Carol C"; EvFindLogin "carol";
              EvGetUser "dave"; EvFindLogin "dave"; EvCreateOrUpdateUser dave_record;
              EvGetUser "Erin E"; EvFindLogin "erin"])).
Proof.
  assert (Hrun : resolve_each [bob; carol; dave] (Some resolver0) =
                   Some ([(Some bob_record, None); (None, None); (Some dave_record, None)],
                         Some resolver_bob_dave,
                         [EvGetUser "bob"; EvCreateOrUpdateUser bob_record;
                          EvGetUser "Carol C"; EvFindLogin "carol";
                          EvGetUser "dave"; EvFindLogin "dave";
                          EvCreateOrUpdateUser dave_record]))
    by (vm_compute; reflexivity).
  assert (Hok : Forall (fun x : Resolved => x.2 = None)
                  [(Some bob_record, None); (None, None); (Some dave_record, None)])
    by (repeat constructor).
  assert (Herin : Resolve (Some erin) (Some resolver_bob_dave) =
                    Some ((None, Some (WithMessage bad_gateway "failed to find user erin")),
                          Some resolver_bob_dave,
                          [EvGetUser "Erin E"; EvFindLogin "erin"]))
    by (vm_compute; reflexivity).
  destruct (GitUserSliceAsUserDetailsSlice_all_or_nothing
              (Some resolver0) _ [bob; carol; dave] _ _ Hrun Hok) as [Hall Hfail].
  split.
  - do 2 eexists. exact Hall.
  - eexists. exact (Hfail erin [alice] _ _ _ _ Herin).
Defined.

(** "dave" under the name of his key: the second resolution is served by
    the cache. *)
Lemma Resolve_dave_cached_twice :
  scm.Login dave = "dave" /\ scm.Name dave = naming_ToValidName "dave" /\
  GetUser (cache resolver0) (scm.Name dave) = None /\
  Resolve (Some dave) (Some resolver0) =
    Some ((Some dave_record, None), Some resolver_dave,
          [EvGetUser "dave"; EvFindLogin "dave"; EvCreateOrUpdateUser dave_record]) /\
  GetUser (cache resolver_dave) "dave" = Some dave_record /\
  Resolve (Some dave) (Some resolver_dave) =
    Some ((Some dave_record, None), Some resolver_dave, [EvGetUser "dave"]).
Proof.
  assert (H1 : scmhelpers_IsScmNotFound None = false) by reflexivity.
  assert (H2 : scm.Login dave = "dave") by reflexivity.
  assert (H3 : scm.Name dave = naming_ToValidName "dave") by (vm_compute; reflexivity).
  assert (H4 : scm.Name dave <> "") by discriminate.
  assert (H5 : GetUser (cache resolver0) (scm.Name dave) = None)
    by (vm_compute; reflexivity).
  assert (H6 : GitProvider resolver0 = Some directory) by reflexivity.
  assert (H7 : FindLogin directory "dave"
               = Some ((Some (scm.mkUser "dave" "Dave D" "dave@x.com"
                           "https://example.com/dave" ""), None), directory))
    by reflexivity.
  assert (H8 : CreateOrUpdateUser (cache resolver0)
                 (jenkinsv1.mkUserDetails "dave" (naming_ToValidName "dave") "dave@x.com")
               = (None, cache resolver_dave)) by (vm_compute; reflexivity).
  split; [exact H2|]. split; [exact H3|]. split; [exact H5|].
  exact (Resolve_dave_cached resolver0 directory directory dave
           "https://example.com/dave" "" (cache resolver_dave)
           AsciiExternals_idempotent MemoryStore_upsert_by_name
           H1 H2 H3 H4 H5 H6 H7 H8).
Defined.

(** C2, as stated, fails: the identity with login "dave" and the name
    "Dave D" is not in the cache, and the platform returns login "dave",
    name "Dave D", email "dave@x.com".  The first [Resolve] records the
    user under "dave"; the second [Resolve] of the same identity looks up
    "Dave D", misses, and queries the platform a second time. *)
Lemma Resolve_dave_displayed_queries_again :
  scm.Login dave_displayed = "dave" /\
  GetUser (cache resolver0) (scm.Name dave_displayed) = None /\
  FindLogin directory "dave" =
    Some ((Some (scm.mkUser "dave" "Dave D" "dave@x.com" "https://example.com/dave" ""),
      None), directory) /\
  Resolve (Some dave_displayed) (Some resolver0) =
    Some ((Some dave_record, None), Some resolver_dave,
          [EvGetUser "Dave D"; EvFindLogin "dave"; EvCreateOrUpdateUser dave_record]) /\
  GetUser (cache resolver_dave) "dave" = Some dave_record /\
  Resolve (Some dave_displayed) (Some resolver_dave) =
    Some ((Some dave_record, None), Some resolver_dave,
          [EvGetUser "Dave D"; EvFindLogin "dave"; EvCreateOrUpdateUser dave_record]) /\
  ~ exists out r' t,
      Resolve (Some dave_displayed) (Some resolver_dave) = Some (out, r', t) /\
      EvFindLogin "dave" ∉ t.
Proof.
  repeat split; try (vm_compute; reflexivity).
  intros (out & r' & t & Hrun & Hquiet).
  assert (Ht : t = [EvGetUser "Dave D"; EvFindLogin "dave";
                    EvCreateOrUpdateUser dave_record])
    by (vm_compute in Hrun; vm_compute; congruence).
  apply Hquiet. rewrite Ht. apply list_elem_of_further, list_elem_of_here.
Qed.

(** ** What every run of [Resolve] has in common *)

Section Invariants.
Context {Client UserDetailService : Type}.
Context `{!Externals, !UserService Client, !UserCache UserDetailService}.

Implicit Types (s : GitUserResolver Client UserDetailService).
Implicit Types (r : option (GitUserResolver Client UserDetailService)).
Implicit Types (user : scm.User) (u : jenkinsv1.UserDetails) (t : list Event).

(** [Resolve] without the monad: one equation, a branch of the source per
    line. *)
Lemma Resolve_unfold r (user : option scm.User) :
  Resolve user r =
    match r, user with
    | None, _ => Some ((None, None), None, [])
    | Some s, None => Some ((None, None), Some s, [])
    | Some s, Some user0 =>
        if String.eqb (scm.Name user0) "" then Some ((None, None), Some s, []) else
        match GetUser (cache s) (scm.Name user0) with
        | Some u => Some ((Some u, None), Some s, [EvGetUser (scm.Name user0)])
        | None =>
            if String.eqb (scm.Login user0) "" then
              match CreateOrUpdateUser (cache s) (GitUserToUser user0) with
              | (err, c) =>
                  Some ((Some (GitUserToUser user0),
                         errors_Wrapf err "failed to cache User"),
                        Some (mkResolver (GitProvider s) c),
                        [EvGetUser (scm.Name user0);
                         EvCreateOrUpdateUser (GitUserToUser user0)])
              end
            else
              match GitProvider s with
              | None => None
              | Some p =>
                  match FindLogin p (scm.Login user0) with
                  | None => None
                  | Some ((None, _), p1) =>
                      Some ((None, None), Some (mkResolver (Some p1) (cache s)),
                            [EvGetUser (scm.Name user0); EvFindLogin (scm.Login user0)])
                  | Some ((Some scmUser, err), p1) =>
                      if scmhelpers_IsScmNotFound err then
                        Some ((None, None), Some (mkResolver (Some p1) (cache s)),
                              [EvGetUser (scm.Name user0);
                               EvFindLogin (scm.Login user0)])
                      else
                        match err with
                        | Some e =>
                            Some ((None,
                                   Some (WithMessage e
                                           ("failed to find user " +:+ scm.Login user0))),
                                  Some (mkResolver (Some p1) (cache s)),
                                  [EvGetUser (scm.Name user0);
                                   EvFindLogin (scm.Login user0)])
                        | None =>
                            let u := jenkinsv1.mkUserDetails (scm.Login scmUser)
                                       (canonical_id scmUser) (scm.Email scmUser) in
                            match CreateOrUpdateUser (cache s) u with
                            | (Some e, c) =>
                                Some ((None, Some (WithMessage e "failed to create User")),
                                      Some (mkResolver (Some p1) c),
                                      [EvGetUser (scm.Name user0);
                                       EvFindLogin (scm.Login user0);
                                       EvCreateOrUpdateUser u])
                            | (None, c) =>
                                Some ((Some u, None), Some (mkResolver (Some p1) c),
                                      [EvGetUser (scm.Name user0);
                                       EvFindLogin (scm.Login user0);
                                       EvCreateOrUpdateUser u])
                            end
                        end
                  end
              end
        end
    end.
Proof.
  unfold Resolve, bind, receiver, ret, cache_GetUser, cache_CreateOrUpdateUser,
    Users_FindLogin.
  destruct r as [s|], user as [user0|]; simpl; try done.
  destruct (String.eqb (scm.Name user0) ""); [done|].
  destruct (GetUser (cache s) (scm.Name user0)) as [u|]; [done|].
  destruct (String.eqb (scm.Login user0) "").
  - by destruct (CreateOrUpdateUser _ _) as [[e|] c].
  - destruct (GitProvider s) as [p|]; [|done].
    destruct (FindLogin p (scm.Login user0)) as [[[[scmUser|] err] p1]|];
      simpl; [|done|done].
    destruct (scmhelpers_IsScmNotFound err); [done|].
    destruct err as [e|]; simpl; [done|].
    by destruct (CreateOrUpdateUser _ _) as [[e|] c].
Qed.

(** Splits a run of [Resolve] into the branches of its source. *)
Ltac resolve_cases :=
  rewrite Resolve_unfold; cbv zeta;
  repeat match goal with
         | |- context [match ?x with _ => _ end] =>
             lazymatch x with
             | context [match _ with _ => _ end] => fail
             | _ => destruct x eqn:?
             end
         end.

(** X1. The calls of one [Resolve], in order: nothing; or one cache lookup by
    the identity's name, then at most one platform query by its login,
    then at most one cache write. *)
Theorem Resolve_trace_shape r (user : option scm.User) res r' t :
  Resolve user r = Some (res, r', t) ->
  t = [] \/
  exists user0, user = Some user0 /\
    (t = [EvGetUser (scm.Name user0)] \/
     (exists u, t = [EvGetUser (scm.Name user0); EvCreateOrUpdateUser u]) \/
     t = [EvGetUser (scm.Name user0); EvFindLogin (scm.Login user0)] \/
     (exists u, t = [EvGetUser (scm.Name user0); EvFindLogin (scm.Login user0);
                     EvCreateOrUpdateUser u])).
Proof.
  resolve_cases; intros Hrun; try discriminate Hrun;
    injection Hrun as <- <- <-; eauto 10.
Qed.

(** X2. [Resolve] dereferences nil in one situation only: it is asked for
    a named identity that has a login and is not in the cache, and the
    resolver has no platform client ([GitProvider] is nil) or its client
    has no [Users] service (the call of [FindLogin] panics). *)
Theorem Resolve_panics_iff r (user : option scm.User) :
  Resolve user r = None <->
  exists s user0,
    r = Some s /\ user = Some user0 /\
    scm.Name user0 <> "" /\
    GetUser (cache s) (scm.Name user0) = None /\
    scm.Login user0 <> "" /\
    (GitProvider s = None \/
     exists p, GitProvider s = Some p /\ FindLogin p (scm.Login user0) = None).
Proof.
  split.
  - resolve_cases; try discriminate; intros _;
      do 2 eexists; repeat split; try done; try (by apply String.eqb_neq).
    + right. by eexists.
    + by left.
  - intros (s & user0 & -> & -> & Hname & Hmiss & Hlogin & Hp).
    rewrite Resolve_unfold.
    apply String.eqb_neq in Hname, Hlogin.
    rewrite Hname, Hmiss, Hlogin.
    destruct Hp as [->|(p & -> & ->)]; done.
Qed.

(** Every run of [Resolve] on a resolver and an identity is one of the
    runs of [ResolveRun]. *)
Lemma Resolve_run s user res r' t :
  Resolve (Some user) (Some s) = Some (res, r', t) -> ResolveRun s user res r' t.
Proof.
  rewrite Resolve_unfold.
  destruct (String.eqb_spec (scm.Name user) "") as [Hname|Hname].
  { intros [= <- <- <-]. by constructor. }
  destruct (GetUser (cache s) (scm.Name user)) as [u|] eqn:Hget.
  { intros [= <- <- <-]. by constructor. }
  destruct (String.eqb_spec (scm.Login user) "") as [Hlogin|Hlogin].
  { destruct (CreateOrUpdateUser _ _) as [err c] eqn:Hwrite.
    intros [= <- <- <-]. by constructor. }
  destruct (GitProvider s) as [p|] eqn:Hp; [|done].
  destruct (FindLogin p (scm.Login user)) as [[[[scmUser|] err] p1]|] eqn:Hfind;
    [| |done].
  2: { intros [= <- <- <-]. by econstructor. }
  destruct (scmhelpers_IsScmNotFound err) eqn:Hclass.
  { intros [= <- <- <-]. by eapply run_not_found. }
  destruct err as [e|].
  { intros [= <- <- <-]. by eapply run_query_failed. }
  cbv zeta. destruct (CreateOrUpdateUser _ _) as [[e|] c] eqn:Hwrite.
  - intros [= <- <- <-]. by eapply run_write_failed.
  - intros [= <- <- <-]. by eapply run_recorded.
Qed.

(** Every run of [ResolveRun] is a run of [Resolve]. *)
Lemma ResolveRun_Resolve s user res r' t :
  ResolveRun s user res r' t -> Resolve (Some user) (Some s) = Some (res, r', t).
Proof.
  rewrite Resolve_unfold.
  destruct 1;
    repeat match goal with
           | H : _ <> "" |- _ => apply String.eqb_neq in H; rewrite H
           | H : _ = "" |- _ => rewrite H
           | H : GetUser _ _ = _ |- _ => rewrite H
           | H : GitProvider _ = _ |- _ => rewrite H
           | H : FindLogin _ _ = _ |- _ => rewrite H
           | H : scmhelpers_IsScmNotFound _ = _ |- _ => rewrite H
           | H : CreateOrUpdateUser _ _ = _ |- _ => rewrite H
           end; simpl; try done.
  all: by match goal with
          | H : CreateOrUpdateUser _ _ = _ |- _ => rewrite H
          end.
Qed.

(** X3. A record that [Resolve] returns without error is backed by the cache:
    either it was read from the cache under the identity's name and
    nothing else was called, or the cache missed and the last call of the
    run is the write of that very record, which reported no error. *)
Theorem Resolve_returns_recorded s user u r' t :
  Resolve (Some user) (Some s) = Some ((Some u, None), r', t) ->
  (GetUser (cache s) (scm.Name user) = Some u /\
   r' = Some s /\ t = [EvGetUser (scm.Name user)]) \/
  (GetUser (cache s) (scm.Name user) = None /\
   exists s', r' = Some s' /\
     CreateOrUpdateUser (cache s) u = (None, cache s') /\
     last t = Some (EvCreateOrUpdateUser u)).
Proof.
  intros Hrun. apply Resolve_run in Hrun. inversion Hrun; subst.
  - by left.
  - right. split; [done|]. destruct err; [done|]. by eexists.
  - right. split; [done|]. by eexists.
Qed.

(** X4. An error of [Resolve] is never the bare error of a collaborator: it
    is that error wrapped with one of three messages.  With "failed to
    cache User" the cause is the error of the cache write of the record
    built from an identity without login, and that record is returned
    with it.  With "failed to find user {login}" the cause is the error
    the platform query returned, and with "failed to create User" it is
    the error of the cache write of the platform user's record; both come
    with a nil record, on an identity with a login. *)
Theorem Resolve_error_wrapped s user res e r' t :
  Resolve (Some user) (Some s) = Some ((res, Some e), r', t) ->
  exists cause,
    (e = WithMessage cause "failed to cache User" /\
     scm.Login user = "" /\ res = Some (GitUserToUser user) /\
     exists c, CreateOrUpdateUser (cache s) (GitUserToUser user) = (Some cause, c)) \/
    (e = WithMessage cause ("failed to find user " +:+ scm.Login user) /\
     scm.Login user <> "" /\ res = None /\
     exists p scmUser p1,
       GitProvider s = Some p /\
       FindLogin p (scm.Login user) = Some ((Some scmUser, Some cause), p1)) \/
    (e = WithMessage cause "failed to create User" /\
     scm.Login user <> "" /\ res = None /\
     exists p scmUser p1 c,
       GitProvider s = Some p /\
       FindLogin p (scm.Login user) = Some ((Some scmUser, None), p1) /\
       CreateOrUpdateUser (cache s)
         (jenkinsv1.mkUserDetails (scm.Login scmUser) (canonical_id scmUser)
            (scm.Email scmUser)) = (Some cause, c)).
Proof.
  intros Hrun. apply Resolve_run in Hrun. inversion Hrun; subst.
  - destruct err as [cause|]; [|done].
    match goal with H : errors_Wrapf _ _ = _ |- _ => injection H as <- end.
    exists cause. left. repeat split; try done. by eexists.
  - eexists. right. left. repeat split; try done. by do 3 eexists.
  - eexists. right. right. repeat split; try done. by do 4 eexists.
Qed.

(** X5. What a run of [Resolve] leaves alone: the receiver stays a resolver,
    it has a platform client after the run exactly when it had one before,
    the client is the same when no query was made, and the cache is the
    same when no write was made. *)
Theorem Resolve_frame s user res r' t :
  Resolve (Some user) (Some s) = Some (res, r', t) ->
  exists s', r' = Some s' /\
    (is_Some (GitProvider s') <-> is_Some (GitProvider s)) /\
    ((forall login, EvFindLogin login ∉ t) -> GitProvider s' = GitProvider s) /\
    ((forall u, EvCreateOrUpdateUser u ∉ t) -> cache s' = cache s).
Proof.
  intros Hrun. apply Resolve_run in Hrun.
  inversion Hrun; subst; eexists; (split; [reflexivity|]); simpl;
    repeat match goal with H : GitProvider _ = _ |- _ => rewrite H end;
    (split; [split; eauto|]); split; intros Hquiet; try done;
    exfalso; eapply Hquiet; repeat constructor.
Qed.

(** A resolver with a platform client whose [Users] service is there never
    panics in [Resolve], and has a platform client afterwards. *)
Lemma Resolve_provider_kept s (user : option scm.User) :
  (forall p login, is_Some (FindLogin p login)) ->
  is_Some (GitProvider s) ->
  exists res s' t,
    Resolve user (Some s) = Some (res, Some s', t) /\ is_Some (GitProvider s').
Proof.
  intros Husers [p Hp]. resolve_cases;
    try (by do 3 eexists; split; [reflexivity|]; eauto);
    try congruence.
  match goal with H : FindLogin ?c ?l = None |- _ =>
    destruct (Husers c l) as [? ?]; congruence end.
Qed.

(** With a cache that upserts by name, a record returned without error is
    found in the cache under the identity's name afterwards, when it was
    read from there, when the identity has no login, or when the record
    carries the identity's name. *)
Lemma Resolve_then_cached s s1 user u t :
  upsert_by_name UserDetailService ->
  Resolve (Some user) (Some s) = Some ((Some u, None), Some s1, t) ->
  scm.Login user = "" \/ jenkinsv1.Name u = scm.Name user ->
  ResolveRun s1 user (Some u, None) (Some s1) [EvGetUser (scm.Name user)].
Proof.
  intros Hupsert Hrun Hkey.
  apply Resolve_run in Hrun. inversion Hrun; subst.
  - by constructor.
  - destruct err; [done|]. constructor; [done|]. simpl.
    match goal with H : CreateOrUpdateUser _ _ = _ |- _ =>
      by destruct (Hupsert _ _ _ H) as [Hget _] end.
  - destruct Hkey as [Hkey|Hkey]; [done|].
    constructor; [done|]. simpl in *.
    match goal with H : CreateOrUpdateUser _ _ = _ |- _ =>
      destruct (Hupsert _ _ _ H) as [Hget _] end.
    simpl in Hget. congruence.
Qed.

(** X6. With a cache that upserts by name: once [Resolve] has returned a
    record that carries the identity's own name, resolving the identity
    again returns the same record from the cache, with the lookup as its
    only call. *)
Theorem Resolve_again_from_cache s s1 user u t :
  upsert_by_name UserDetailService ->
  Resolve (Some user) (Some s) = Some ((Some u, None), Some s1, t) ->
  jenkinsv1.Name u = scm.Name user ->
  Resolve (Some user) (Some s1) =
    Some ((Some u, None), Some s1, [EvGetUser (scm.Name user)]).
Proof.
  intros Hupsert Hrun Hkey. apply ResolveRun_Resolve.
  apply (Resolve_then_cached s s1 user u t); auto.
Qed.

(** X7. With a cache that upserts by name: when the cache misses and [Resolve]
    returns a record whose name is not the identity's name, the identity
    has a login, the cache still misses it afterwards, and every later
    [Resolve] of it on that resolver queries the platform again. *)
Theorem Resolve_renamed_never_cached s s1 user u t :
  upsert_by_name UserDetailService ->
  GetUser (cache s) (scm.Name user) = None ->
  Resolve (Some user) (Some s) = Some ((Some u, None), Some s1, t) ->
  jenkinsv1.Name u <> scm.Name user ->
  scm.Login user <> "" /\
  GetUser (cache s1) (scm.Name user) = None /\
  forall res r2 t2,
    Resolve (Some user) (Some s1) = Some (res, r2, t2) ->
    EvFindLogin (scm.Login user) ∈ t2.
Proof.
  intros Hupsert Hmiss Hrun Hkey.
  apply Resolve_run in Hrun. inversion Hrun; subst; [congruence|done|].
  assert (Hmiss1 : GetUser c (scm.Name user) = None).
  { match goal with H : CreateOrUpdateUser _ _ = _ |- _ =>
      destruct (Hupsert _ _ _ H) as [_ Hother] end.
    rewrite Hother; [done|]. intros Hsame. by apply Hkey. }
  split; [done|]. split; [done|].
  intros res r2 t2 Hrun2. apply Resolve_run in Hrun2.
  inversion Hrun2; subst; simpl in *; try congruence;
    apply list_elem_of_further, list_elem_of_here.
Qed.

(** ** [GitSignatureAsUser] *)

(** X8. On any signature and any receiver, [GitSignatureAsUser] returns (it
    does not need the platform client, which may be nil), it never queries
    the platform, and it leaves the client as it is: a signature has no
    login. *)
Theorem GitSignatureAsUser_offline (signature : object.Signature) r :
  exists res r' t,
    GitSignatureAsUser (Some signature) r = Some (res, r', t) /\
    (forall login, EvFindLogin login ∉ t) /\
    (r = None -> r' = None /\ t = []) /\
    (forall s, r = Some s -> exists s', r' = Some s' /\ GitProvider s' = GitProvider s).
Proof.
  unfold GitSignatureAsUser.
  destruct (_ && _).
  { do 3 eexists. split; [reflexivity|]. split; [by inversion 1|].
    split; [done|]. intros s ->. by eexists. }
  rewrite Resolve_unfold. destruct r as [s|]; simpl.
  2: { do 3 eexists. split; [reflexivity|]. split; [by inversion 1|]. done. }
  destruct (String.eqb (object.Name signature) "").
  { do 3 eexists. split; [reflexivity|]. split; [by inversion 1|].
    split; [done|]. intros ? [= <-]. by eexists. }
  destruct (GetUser _ _) as [u|].
  { do 3 eexists. split; [reflexivity|]. split.
    - intros login Hin. by repeat (inversion Hin as [|? ? ? Hin']; subst; clear Hin;
                                    try rename Hin' into Hin).
    - split; [done|]. intros ? [= <-]. by eexists. }
  destruct (CreateOrUpdateUser _ _) as [err c].
  do 3 eexists. split; [reflexivity|]. split.
  - intros login Hin. inversion Hin as [|? ? ? Hin1]; subst.
    inversion Hin1 as [|? ? ? Hin2]; subst. inversion Hin2.
  - split; [done|]. intros ? [= <-]. by eexists.
Qed.

(** X9. With a cache that upserts by name: once [GitSignatureAsUser] has
    returned a record without error, the same signature is answered from
    the cache with the same record, the lookup by the signature's name
    being the only call. *)
Theorem GitSignatureAsUser_again_from_cache (signature : object.Signature) s s1 u t :
  upsert_by_name UserDetailService ->
  GitSignatureAsUser (Some signature) (Some s) = Some ((Some u, None), Some s1, t) ->
  GitSignatureAsUser (Some signature) (Some s1) =
    Some ((Some u, None), Some s1, [EvGetUser (object.Name signature)]).
Proof.
  intros Hupsert. unfold GitSignatureAsUser.
  destruct (_ && _); [done|]. intros Hrun.
  apply ResolveRun_Resolve.
  by apply (Resolve_then_cached s s1 _ u t Hupsert Hrun); left.
Qed.

(** ** [GitUserSliceAsUserDetailsSlice] *)

Lemma Resolve_nil_receiver_run (user : option scm.User) :
  Resolve user (@None (GitUserResolver Client UserDetailService))
  = Some ((None, None), None, []).
Proof. by rewrite Resolve_unfold. Qed.

Lemma resolve_loop_nil_receiver users :
  forall answer,
    resolve_loop users answer (@None (GitUserResolver Client UserDetailService))
    = Some ((answer, None), None, []).
Proof.
  induction users as [|user rest IH]; intros answer; [done|].
  simpl. unfold bind. rewrite Resolve_nil_receiver_run. simpl. by rewrite IH.
Qed.

(** X10. On a nil receiver the batch returns an empty slice and no error for
    any list of users, without a call and without a panic. *)
Theorem GitUserSliceAsUserDetailsSlice_nil_receiver (users : list scm.User) :
  GitUserSliceAsUserDetailsSlice users
    (@None (GitUserResolver Client UserDetailService))
  = Some (([], None), None, []).
Proof. apply resolve_loop_nil_receiver. Qed.

(** The loop started on a slice [answer] is the loop started on the empty
    slice with [answer] in front, unless it ends on an error. *)
Lemma resolve_loop_answer users :
  forall answer r,
    resolve_loop users answer r =
      match resolve_loop users [] r with
      | Some ((l, None), r', t) => Some ((answer ++ l, None), r', t)
      | other => other
      end.
Proof.
  induction users as [|user rest IH]; intros answer r.
  { simpl. unfold ret. by rewrite app_nil_r. }
  simpl. unfold bind.
  destruct (Resolve (Some user) r) as [[[[u [e|]] r1] t1]|]; simpl; try done.
  rewrite (IH (match u with Some u0 => answer ++ [u0] | None => answer end)).
  rewrite (IH (match u with Some u0 => [] ++ [u0] | None => [] end)).
  destruct (resolve_loop rest [] r1) as [[[[l [e|]] r2] t2]|]; simpl; try done.
  destruct u as [u0|]; simpl; [|done]. by rewrite <- app_assoc.
Qed.

(** A batch that ends on an error returns the nil slice. *)
Lemma GitUserSliceAsUserDetailsSlice_result_nil (users : list scm.User) r l e r' t :
  resolve_loop users [] r = Some ((l, Some e), r', t) -> l = [].
Proof.
  revert r l r' t. induction users as [|user rest IH]; intros r l r' t; [done|].
  simpl. unfold bind.
  destruct (Resolve (Some user) r) as [[[[u [e0|]] r1] t1]|]; simpl; try done.
  { by intros [= <- <- <- <-]. }
  rewrite resolve_loop_answer.
  destruct (resolve_loop rest [] r1) as [[[[l2 [e1|]] r2] t2]|] eqn:Hrest;
    simpl; try done.
  intros [= <- <- <- <-]. by apply (IH _ _ _ _ Hrest).
Qed.

(** X11. The batch returns at most one record per user, and no record at all
    with an error. *)
Theorem GitUserSliceAsUserDetailsSlice_result_bound
    (users : list scm.User) r l err r' t :
  GitUserSliceAsUserDetailsSlice users r = Some ((l, err), r', t) ->
  length l <= length users /\ (err <> None -> l = []).
Proof.
  unfold GitUserSliceAsUserDetailsSlice.
  revert r l err r' t. induction users as [|user rest IH]; intros r l err r' t.
  { simpl. intros [= <- <- <- <-]. done. }
  simpl. unfold bind.
  destruct (Resolve (Some user) r) as [[[[u [e|]] r1] t1]|]; simpl; try done.
  { intros [= <- <- <- <-]. split; [simpl; lia|done]. }
  rewrite resolve_loop_answer.
  destruct (resolve_loop rest [] r1) as [[[[l2 [e|]] r2] t2]|] eqn:Hrest;
    simpl; try done.
  - intros [= <- <- <- <-]. destruct (IH _ _ _ _ _ Hrest) as [_ Hnil].
    rewrite Hnil by done. split; [simpl; lia|done].
  - intros [= <- <- <- <-]. destruct (IH _ _ _ _ _ Hrest) as [Hlen _].
    split; [|done]. rewrite length_app. destruct u; simpl; lia.
Qed.

(** X12. The batch over [xs ++ ys] is the batch over [xs] and then, from the
    resolver it leaves, the batch over [ys]: the records and the calls are
    concatenated; an error in [xs] ends the run before [ys] is touched,
    and an error in [ys] drops the records of [xs]. *)
Theorem GitUserSliceAsUserDetailsSlice_app (xs ys : list scm.User) r :
  GitUserSliceAsUserDetailsSlice (xs ++ ys) r =
    match GitUserSliceAsUserDetailsSlice xs r with
    | Some ((l1, None), r1, t1) =>
        match GitUserSliceAsUserDetailsSlice ys r1 with
        | Some ((l2, None), r2, t2) => Some ((l1 ++ l2, None), r2, t1 ++ t2)
        | Some ((_, Some e), r2, t2) => Some (([], Some e), r2, t1 ++ t2)
        | None => None
        end
    | other => other
    end.
Proof.
  unfold GitUserSliceAsUserDetailsSlice.
  revert r. induction xs as [|user rest IH]; intros r.
  { simpl. destruct (resolve_loop ys [] r) as [[[[l2 [e|]] r2] t2]|] eqn:Hys;
      simpl; try done.
    assert (Hnil : l2 = []); [|by rewrite Hnil].
    apply (GitUserSliceAsUserDetailsSlice_result_nil ys r l2 e r2 t2 Hys). }
  simpl. unfold bind.
  destruct (Resolve (Some user) r) as [[[[u [e|]] r1] t1]|]; simpl; try done.
  rewrite (resolve_loop_answer (rest ++ ys)), (resolve_loop_answer rest), IH.
  destruct (resolve_loop rest [] r1) as [[[[l1 [e|]] r2] t2]|]; simpl; try done.
  destruct (resolve_loop ys [] r2) as [[[[l2 [e|]] r3] t3]|]; simpl; try done.
  - by rewrite app_assoc.
  - by rewrite !app_assoc.
Qed.

(** X13. On a resolver that has a platform client, when the [Users] service
    of the client is there in every state (no call of [FindLogin]
    panics), the batch never panics, whatever the users and whatever the
    cache and the platform answer, and the resolver still has a client
    afterwards. *)
Theorem GitUserSliceAsUserDetailsSlice_no_panic (users : list scm.User) s :
  (forall p login, is_Some (FindLogin p login)) ->
  is_Some (GitProvider s) ->
  exists out s' t,
    GitUserSliceAsUserDetailsSlice users (Some s) = Some (out, Some s', t) /\
    is_Some (GitProvider s').
Proof.
  intros Husers. unfold GitUserSliceAsUserDetailsSlice.
  revert s. induction users as [|user rest IH]; intros s Hp.
  { by do 3 eexists. }
  simpl. unfold bind.
  destruct (Resolve_provider_kept s (Some user) Husers Hp)
    as (res & s1 & t1 & -> & Hp1).
  destruct res as [u [e|]]; simpl.
  { by do 3 eexists. }
  rewrite resolve_loop_answer.
  destruct (IH s1 Hp1) as ([l err] & s2 & t2 & -> & Hp2).
  destruct err; by do 3 eexists.
Qed.

(** X14. When every user of the batch has a name that the cache knows, the
    batch returns the cached records in input order, its calls are the
    lookups by name, one per user, and the resolver is unchanged: no
    query, no write, and no need of a platform client. *)
Theorem GitUserSliceAsUserDetailsSlice_all_cached (users : list scm.User) s :
  Forall (fun user => scm.Name user <> "" /\
                      is_Some (GetUser (cache s) (scm.Name user))) users ->
  GitUserSliceAsUserDetailsSlice users (Some s) =
    Some ((omap (fun user => GetUser (cache s) (scm.Name user)) users, None),
          Some s,
          map (fun user => EvGetUser (scm.Name user)) users).
Proof.
  unfold GitUserSliceAsUserDetailsSlice.
  induction 1 as [|user rest [Hname [u Hget]] _ IH]; [done|].
  simpl. unfold bind.
  rewrite (ResolveRun_Resolve s user _ _ _ (run_cached s user u Hname Hget)).
  simpl. rewrite resolve_loop_answer, IH. simpl.
  change (list_omap _ _ ?f ?l) with (omap f l). by rewrite Hget.
Qed.

End Invariants.

(** ** The provider key and the conversions *)

Lemma string_app_length (a b : string) :
  String.length (a +:+ b) = String.length a + String.length b.
Proof. induction a as [|c a IH]; simpl; [done|]. by rewrite IH. Qed.

(** Appending the same text to two strings tells them apart. *)
Lemma string_app_inv_tail (a b tail : string) :
  a +:+ tail = b +:+ tail -> a = b.
Proof.
  revert b. induction a as [|c a IH]; intros [|d b] Heq; simpl in *.
  - done.
  - apply (f_equal String.length) in Heq.
    rewrite ?string_app_length in Heq. simpl in Heq.
    rewrite ?string_app_length in Heq. lia.
  - apply (f_equal String.length) in Heq.
    rewrite ?string_app_length in Heq. simpl in Heq.
    rewrite ?string_app_length in Heq. lia.
  - injection Heq as -> Heq. by rewrite (IH b Heq).
Qed.

Section KeyProperties.
Context {Client UserDetailService : Type} `{!ClientDriver Client}.

Implicit Types (r : option (GitUserResolver Client UserDetailService)).
Implicit Types (s : GitUserResolver Client UserDetailService).
Implicit Types (user : jenkinsv1_User.User).

(** X15. The provider key is empty exactly on a nil resolver and on a resolver
    without platform client; with a client it is never empty, whatever
    the driver's name. *)
Theorem GitProviderKey_empty_iff r :
  GitProviderKey r = "" <-> r = None \/ exists s, r = Some s /\ GitProvider s = None.
Proof.
  destruct r as [s|]; simpl; [|by split; [left|]].
  destruct (GitProvider s) as [p|] eqn:Hp; simpl.
  - split; [done|]. intros [|(s' & [= <-] & Hnone)]; [done|]. congruence.
  - split; [|done]. intros _. right. by exists s.
Qed.

(** X16. Resolvers whose clients have drivers of different names have different
    provider keys: equal keys mean equal driver names. *)
Theorem GitProviderKey_injective s1 s2 p1 p2 :
  GitProvider s1 = Some p1 ->
  GitProvider s2 = Some p2 ->
  GitProviderKey (Some s1) = GitProviderKey (Some s2) ->
  Driver_String p1 = Driver_String p2.
Proof.
  unfold GitProviderKey. intros -> -> [= Heq].
  change (Driver_String p1 +:+ "-userid" = Driver_String p2 +:+ "-userid") in Heq.
  by apply string_app_inv_tail in Heq.
Qed.

(** The scan of [GitUserLogin] stops at the first account of the
    resolver's provider. *)
Lemma first_account_match r pre a post :
  Forall (fun b => jenkinsv1_User.Provider b <> GitProviderKey r) pre ->
  jenkinsv1_User.Provider a = GitProviderKey r ->
  first_account r (pre ++ a :: post) = jenkinsv1_User.ID a.
Proof.
  intros Hpre Ha. induction Hpre as [|b pre Hb _ IH]; simpl.
  - by rewrite Ha, String.eqb_refl.
  - apply String.eqb_neq in Hb. by rewrite Hb.
Qed.

(** Without an account of the resolver's provider the scan ends on the
    empty string. *)
Lemma first_account_no_match r accounts :
  Forall (fun a => jenkinsv1_User.Provider a <> GitProviderKey r) accounts ->
  first_account r accounts = "".
Proof.
  induction 1 as [|a rest Ha _ IH]; simpl; [done|].
  apply String.eqb_neq in Ha. by rewrite Ha.
Qed.

(** X17. [GitUserLogin] returns the id of the first account, in the order of
    the list, whose provider is the resolver's key; later accounts of the
    same provider are not looked at. *)
Theorem GitUserLogin_first_match r user pre a post :
  jenkinsv1_User.Accounts (jenkinsv1_User.Spec user) = pre ++ a :: post ->
  Forall (fun b => jenkinsv1_User.Provider b <> GitProviderKey r) pre ->
  jenkinsv1_User.Provider a = GitProviderKey r ->
  GitUserLogin r (Some user) = Some (jenkinsv1_User.ID a).
Proof.
  intros Hacc Hpre Ha. unfold GitUserLogin. rewrite Hacc.
  by rewrite first_account_match.
Qed.

(** X18. [GitUserLogin] returns the empty string unless the user has an account
    of the resolver's provider: a non-empty result is the id of such an
    account, and without such an account the result is empty. *)
Theorem GitUserLogin_sound r user :
  exists id, GitUserLogin r (Some user) = Some id /\
    (id <> "" ->
     exists a, a ∈ jenkinsv1_User.Accounts (jenkinsv1_User.Spec user) /\
       jenkinsv1_User.Provider a = GitProviderKey r /\ jenkinsv1_User.ID a = id) /\
    (Forall (fun a => jenkinsv1_User.Provider a <> GitProviderKey r)
       (jenkinsv1_User.Accounts (jenkinsv1_User.Spec user)) -> id = "").
Proof.
  unfold GitUserLogin. eexists. split; [reflexivity|].
  induction (jenkinsv1_User.Accounts (jenkinsv1_User.Spec user)) as [|a rest IH];
    simpl; [done|].
  destruct (String.eqb_spec (jenkinsv1_User.Provider a) (GitProviderKey r)) as [Ha|Ha].
  - split.
    + intros _. exists a. split; [apply list_elem_of_here|done].
    + intros Hall. apply Forall_cons in Hall as [Hne _]. done.
  - destruct IH as [IH1 IH2]. split.
    + intros Hid. destruct (IH1 Hid) as (b & Hin & Hb).
      exists b. split; [by apply list_elem_of_further|done].
    + intros Hall. apply Forall_cons in Hall as [_ Hrest]. auto.
Qed.

(** X19. On a resolver with a platform client, accounts that carry the key of a
    driver of another name, or no provider at all, are never reported:
    with only such accounts [GitUserLogin] returns the empty string. *)
Theorem GitUserLogin_other_drivers s p user :
  GitProvider s = Some p ->
  Forall (fun a =>
            jenkinsv1_User.Provider a = "" \/
            exists driver, driver <> Driver_String p /\
              jenkinsv1_User.Provider a = "jenkins.io/git-" +:+ driver +:+ "-userid")
         (jenkinsv1_User.Accounts (jenkinsv1_User.Spec user)) ->
  GitUserLogin (Some s) (Some user) = Some "".
Proof.
  intros Hp Hall. unfold GitUserLogin. f_equal.
  assert (Hkey : GitProviderKey (Some s)
                 = "jenkins.io/git-" +:+ Driver_String p +:+ "-userid")
    by (simpl; by rewrite Hp).
  apply first_account_no_match. rewrite Hkey.
  eapply Forall_impl; [exact Hall|]. simpl.
  intros a [Ha|(driver & Hdriver & Ha)] Heq; rewrite Ha in Heq.
  - discriminate Heq.
  - injection Heq as Heq.
    change (driver +:+ "-userid" = Driver_String p +:+ "-userid") in Heq.
    apply string_app_inv_tail in Heq. done.
Qed.

(** X20. A nil resolver, or one without platform client, still scans the
    accounts, with the empty key: [GitUserLogin] then returns the id of
    the first account that names no provider. *)
Theorem GitUserLogin_without_client r user pre a post :
  (r = None \/ exists s, r = Some s /\ GitProvider s = None) ->
  jenkinsv1_User.Accounts (jenkinsv1_User.Spec user) = pre ++ a :: post ->
  Forall (fun b => jenkinsv1_User.Provider b <> "") pre ->
  jenkinsv1_User.Provider a = "" ->
  GitUserLogin r (Some user) = Some (jenkinsv1_User.ID a).
Proof.
  intros Hr Hacc Hpre Ha.
  assert (Hkey : GitProviderKey r = "").
  { destruct Hr as [->|(s & -> & Hp)]; [done|]. simpl. by rewrite Hp. }
  unfold GitUserLogin. rewrite Hacc, first_account_match; by rewrite ?Hkey.
Qed.

(** Converting a user resource to a git user under an id and that git user
    to user details keeps the name and the email of the resource, takes
    the id as login, and so drops the link and the avatar; a nil resource
    panics. *)
Theorem UserToGitUser_GitUserToUser (id : string) user :
  GitUserToUser <$> UserToGitUser id (Some user) =
    Some (jenkinsv1.mkUserDetails id
            (jenkinsv1_User.Name (jenkinsv1_User.Spec user))
            (jenkinsv1_User.Email (jenkinsv1_User.Spec user))) /\
  GitUserToUser <$> UserToGitUser id None = None.
Proof. done. Qed.

End KeyProperties.

(** ** The invariants at work *)

Lemma Resolve_trace_shape_dave :
  Resolve (Some dave) (Some resolver0) =
    Some ((Some dave_record, None), Some resolver_dave,
          [EvGetUser "dave"; EvFindLogin "dave"; EvCreateOrUpdateUser dave_record]) /\
  ([EvGetUser "dave"; EvFindLogin "dave"; EvCreateOrUpdateUser dave_record] = [] \/
   exists user0, Some dave = Some user0 /\
     ([EvGetUser "dave"; EvFindLogin "dave"; EvCreateOrUpdateUser dave_record]
        = [EvGetUser (scm.Name user0)] \/
      (exists u, [EvGetUser "dave"; EvFindLogin "dave"; EvCreateOrUpdateUser dave_record]
                 = [EvGetUser (scm.Name user0); EvCreateOrUpdateUser u]) \/
      [EvGetUser "dave"; EvFindLogin "dave"; EvCreateOrUpdateUser dave_record]
        = [EvGetUser (scm.Name user0); EvFindLogin (scm.Login user0)] \/
      (exists u, [EvGetUser "dave"; EvFindLogin "dave"; EvCreateOrUpdateUser dave_record]
                 = [EvGetUser (scm.Name user0); EvFindLogin (scm.Login user0);
                    EvCreateOrUpdateUser u]))).
Proof.
  assert (Hrun : Resolve (Some dave) (Some resolver0) =
                   Some ((Some dave_record, None), Some resolver_dave,
                         [EvGetUser "dave"; EvFindLogin "dave";
                          EvCreateOrUpdateUser dave_record]))
    by (vm_compute; reflexivity).
  split; [exact Hrun|].
  exact (Resolve_trace_shape (Some resolver0) (Some dave) _ _ _ Hrun).
Defined.

(** Without a platform client, or with a client that has no [Users]
    service, "dave" cannot be resolved: the run panics; "bob", who has no
    login, is resolved all the same. *)
Lemma Resolve_panics_without_client :
  Resolve (Some dave) (Some resolver_no_client) = None /\
  Resolve (Some dave) (Some resolver_no_users) = None /\
  Resolve (Some bob) (Some resolver_no_users) <> None.
Proof.
  split; [|split].
  - apply (proj2 (Resolve_panics_iff (Some resolver_no_client) (Some dave))).
    exists resolver_no_client, dave.
    repeat split; try discriminate; try (vm_compute; reflexivity).
    left. reflexivity.
  - apply (proj2 (Resolve_panics_iff (Some resolver_no_users) (Some dave))).
    exists resolver_no_users, dave.
    repeat split; try discriminate; try (vm_compute; reflexivity).
    right. exists None. split; reflexivity.
  - intros Hpanic.
    apply (proj1 (Resolve_panics_iff (Some resolver_no_users) (Some bob))) in Hpanic.
    destruct Hpanic as (s & user0 & _ & [= <-] & _ & _ & Hlogin & _).
    by apply Hlogin.
Defined.

Lemma Resolve_returns_recorded_dave :
  Resolve (Some dave) (Some resolver0) =
    Some ((Some dave_record, None), Some resolver_dave,
          [EvGetUser "dave"; EvFindLogin "dave"; EvCreateOrUpdateUser dave_record]) /\
  ((GetUser (cache resolver0) "dave" = Some dave_record /\
    Some resolver_dave = Some resolver0 /\
    [EvGetUser "dave"; EvFindLogin "dave"; EvCreateOrUpdateUser dave_record]
      = [EvGetUser "dave"]) \/
   (GetUser (cache resolver0) "dave" = None /\
    exists s', Some resolver_dave = Some s' /\
      CreateOrUpdateUser (cache resolver0) dave_record = (None, cache s') /\
      last [EvGetUser "dave"; EvFindLogin "dave"; EvCreateOrUpdateUser dave_record]
        = Some (EvCreateOrUpdateUser dave_record))).
Proof.
  assert (Hrun : Resolve (Some dave) (Some resolver0) =
                   Some ((Some dave_record, None), Some resolver_dave,
                         [EvGetUser "dave"; EvFindLogin "dave";
                          EvCreateOrUpdateUser dave_record]))
    by (vm_compute; reflexivity).
  split; [exact Hrun|].
  exact (Resolve_returns_recorded resolver0 dave dave_record _ _ Hrun).
Defined.

(** The error of the failing store is the cause of the error that comes
    back for "dave". *)
Lemma Resolve_error_wrapped_faulty :
  Resolve (Some dave) (Some resolver_faulty) =
    Some ((None, Some (WithMessage disk_full "failed to create User")),
          Some resolver_faulty,
          [EvGetUser "dave"; EvFindLogin "dave"; EvCreateOrUpdateUser dave_record]) /\
  exists cause,
    (WithMessage disk_full "failed to create User"
       = WithMessage cause "failed to cache User" /\
     scm.Login dave = "" /\ None = Some (GitUserToUser dave) /\
     exists c, CreateOrUpdateUser (cache resolver_faulty) (GitUserToUser dave)
               = (Some cause, c)) \/
    (WithMessage disk_full "failed to create User"
       = WithMessage cause ("failed to find user " +:+ scm.Login dave) /\
     scm.Login dave <> "" /\ @None jenkinsv1.UserDetails = None /\
     exists p scmUser p1,
       GitProvider resolver_faulty = Some p /\
       FindLogin p (scm.Login dave) = Some ((Some scmUser, Some cause), p1)) \/
    (WithMessage disk_full "failed to create User"
       = WithMessage cause "failed to create User" /\
     scm.Login dave <> "" /\ @None jenkinsv1.UserDetails = None /\
     exists p scmUser p1 c,
       GitProvider resolver_faulty = Some p /\
       FindLogin p (scm.Login dave) = Some ((Some scmUser, None), p1) /\
       CreateOrUpdateUser (cache resolver_faulty)
         (jenkinsv1.mkUserDetails (scm.Login scmUser) (canonical_id scmUser)
            (scm.Email scmUser)) = (Some cause, c)).
Proof.
  assert (Hrun : Resolve (Some dave) (Some resolver_faulty) =
                   Some ((None, Some (WithMessage disk_full "failed to create User")),
                         Some resolver_faulty,
                         [EvGetUser "dave"; EvFindLogin "dave";
                          EvCreateOrUpdateUser dave_record]))
    by (vm_compute; reflexivity).
  split; [exact Hrun|].
  exact (Resolve_error_wrapped resolver_faulty dave _ _ _ _ Hrun).
Defined.

Lemma Resolve_frame_carol :
  Resolve (Some carol) (Some resolver0) =
    Some ((None, None), Some resolver0, [EvGetUser "Carol C"; EvFindLogin "carol"]) /\
  exists s', Some resolver0 = Some s' /\
    (is_Some (GitProvider s') <-> is_Some (GitProvider resolver0)) /\
    ((forall login, EvFindLogin login ∉ [EvGetUser "Carol C"; EvFindLogin "carol"]) ->
     GitProvider s' = GitProvider resolver0) /\
    ((forall u, EvCreateOrUpdateUser u ∉ [EvGetUser "Carol C"; EvFindLogin "carol"]) ->
     cache s' = cache resolver0).
Proof.
  assert (Hrun : Resolve (Some carol) (Some resolver0) =
                   Some ((None, None), Some resolver0,
                         [EvGetUser "Carol C"; EvFindLogin "carol"]))
    by (vm_compute; reflexivity).
  split; [exact Hrun|].
  exact (Resolve_frame resolver0 carol _ _ _ Hrun).
Defined.

Lemma Resolve_again_from_cache_bob :
  Resolve (Some bob) (Some resolver0) =
    Some ((Some bob_record, None), Some resolver_bob,
          [EvGetUser "bob"; EvCreateOrUpdateUser bob_record]) /\
  jenkinsv1.Name bob_record = scm.Name bob /\
  Resolve (Some bob) (Some resolver_bob) =
    Some ((Some bob_record, None), Some resolver_bob, [EvGetUser "bob"]).
Proof.
  assert (Hrun : Resolve (Some bob) (Some resolver0) =
                   Some ((Some bob_record, None), Some resolver_bob,
                         [EvGetUser "bob"; EvCreateOrUpdateUser bob_record]))
    by (vm_compute; reflexivity).
  assert (Hkey : jenkinsv1.Name bob_record = scm.Name bob) by reflexivity.
  split; [exact Hrun|]. split; [exact Hkey|].
  exact (Resolve_again_from_cache resolver0 resolver_bob bob bob_record _
           MemoryStore_upsert_by_name Hrun Hkey).
Defined.

Lemma Resolve_renamed_never_cached_dave :
  GetUser (cache resolver0) (scm.Name dave_displayed) = None /\
  Resolve (Some dave_displayed) (Some resolver0) =
    Some ((Some dave_record, None), Some resolver_dave,
          [EvGetUser "Dave D"; EvFindLogin "dave"; EvCreateOrUpdateUser dave_record]) /\
  jenkinsv1.Name dave_record <> scm.Name dave_displayed /\
  scm.Login dave_displayed <> "" /\
  GetUser (cache resolver_dave) (scm.Name dave_displayed) = None /\
  forall res r2 t2,
    Resolve (Some dave_displayed) (Some resolver_dave) = Some (res, r2, t2) ->
    EvFindLogin (scm.Login dave_displayed) ∈ t2.
Proof.
  assert (Hmiss : GetUser (cache resolver0) (scm.Name dave_displayed) = None)
    by (vm_compute; reflexivity).
  assert (Hrun : Resolve (Some dave_displayed) (Some resolver0) =
                   Some ((Some dave_record, None), Some resolver_dave,
                         [EvGetUser "Dave D"; EvFindLogin "dave";
                          EvCreateOrUpdateUser dave_record]))
    by (vm_compute; reflexivity).
  assert (Hkey : jenkinsv1.Name dave_record <> scm.Name dave_displayed)
    by discriminate.
  split; [exact Hmiss|]. split; [exact Hrun|]. split; [exact Hkey|].
  exact (Resolve_renamed_never_cached resolver0 resolver_dave dave_displayed
           dave_record _ MemoryStore_upsert_by_name Hmiss Hrun Hkey).
Defined.

Lemma GitSignatureAsUser_again_from_cache_bob :
  GitSignatureAsUser (Some (object.mkSignature "bob" "bob@x.com")) (Some resolver0) =
    Some ((Some bob_record, None), Some resolver_bob,
          [EvGetUser "bob"; EvCreateOrUpdateUser bob_record]) /\
  GitSignatureAsUser (Some (object.mkSignature "bob" "bob@x.com")) (Some resolver_bob) =
    Some ((Some bob_record, None), Some resolver_bob, [EvGetUser "bob"]).
Proof.
  assert (Hrun : GitSignatureAsUser (Some (object.mkSignature "bob" "bob@x.com"))
                   (Some resolver0) =
                   Some ((Some bob_record, None), Some resolver_bob,
                         [EvGetUser "bob"; EvCreateOrUpdateUser bob_record]))
    by (vm_compute; reflexivity).
  split; [exact Hrun|].
  exact (GitSignatureAsUser_again_from_cache (object.mkSignature "bob" "bob@x.com")
           resolver0 resolver_bob bob_record _ MemoryStore_upsert_by_name Hrun).
Defined.

Lemma GitUserSliceAsUserDetailsSlice_result_bound_batch :
  GitUserSliceAsUserDetailsSlice [bob; carol; dave] (Some resolver0) =
    Some (([bob_record; dave_record], None), Some resolver_bob_dave,
          [EvGetUser "bob"; EvCreateOrUpdateUser bob_record;
           EvGetUser "Carol C"; EvFindLogin "carol";
           EvGetUser "dave"; EvFindLogin "dave"; EvCreateOrUpdateUser dave_record]) /\
  length [bob_record; dave_record] <= length [bob; carol; dave] /\
  (@None error <> None -> [bob_record; dave_record] = []).
Proof.
  assert (Hrun : GitUserSliceAsUserDetailsSlice [bob; carol; dave] (Some resolver0) =
                   Some (([bob_record; dave_record], None), Some resolver_bob_dave,
                         [EvGetUser "bob"; EvCreateOrUpdateUser bob_record;
                          EvGetUser "Carol C"; EvFindLogin "carol";
                          EvGetUser "dave"; EvFindLogin "dave";
                          EvCreateOrUpdateUser dave_record]))
    by (vm_compute; reflexivity).
  split; [exact Hrun|].
  exact (GitUserSliceAsUserDetailsSlice_result_bound [bob; carol; dave]
           (Some resolver0) _ _ _ _ Hrun).
Defined.

Lemma GitUserSliceAsUserDetailsSlice_no_panic_batch :
  (forall (p : Directory) login, is_Some (FindLogin p login)) /\
  is_Some (GitProvider resolver0) /\
  exists out s' t,
    GitUserSliceAsUserDetailsSlice [bob; erin; frank; dave] (Some resolver0)
      = Some (out, Some s', t) /\
    is_Some (GitProvider s').
Proof.
  assert (Husers : forall (p : Directory) login, is_Some (FindLogin p login))
    by (intros p login; by eexists).
  assert (Hp : is_Some (GitProvider resolver0)) by (by exists directory).
  split; [exact Husers|]. split; [exact Hp|].
  exact (GitUserSliceAsUserDetailsSlice_no_panic [bob; erin; frank; dave] resolver0
           Husers Hp).
Defined.

(** Once "bob" and "dave" are recorded, a batch that names them by their
    keys is served by the cache alone, even without platform client. *)
Lemma GitUserSliceAsUserDetailsSlice_all_cached_batch :
  GitUserSliceAsUserDetailsSlice [dave; bob; dave] (Some resolver_offline) =
    Some (([dave_record; bob_record; dave_record], None), Some resolver_offline,
          [EvGetUser "dave"; EvGetUser "bob"; EvGetUser "dave"]).
Proof.
  assert (Hall : Forall (fun user =>
                    scm.Name user <> "" /\
                    is_Some (GetUser (cache resolver_offline) (scm.Name user)))
                   [dave; bob; dave]).
  { repeat constructor; try discriminate;
      first [by exists dave_record | by exists bob_record]. }
  etrans; [exact (GitUserSliceAsUserDetailsSlice_all_cached [dave; bob; dave]
                    resolver_offline Hall)|].
  vm_compute. reflexivity.
Defined.

Lemma GitProviderKey_injective_github :
  GitProviderKey (Some resolver0) = "jenkins.io/git-github-userid" /\
  GitProviderKey (Some resolver0) = GitProviderKey (Some resolver_faulty) /\
  Driver_String directory = Driver_String directory.
Proof.
  assert (H1 : GitProvider resolver0 = Some directory) by reflexivity.
  assert (H2 : GitProvider resolver_faulty = Some directory) by reflexivity.
  assert (H3 : GitProviderKey (Some resolver0) = GitProviderKey (Some resolver_faulty))
    by reflexivity.
  split; [reflexivity|]. split; [exact H3|].
  exact (GitProviderKey_injective resolver0 resolver_faulty directory directory
           H1 H2 H3).
Defined.

(** Of the two GitHub accounts of the resource, the first one is
    reported. *)
Lemma GitUserLogin_first_match_erin :
  GitUserLogin (Some resolver0) (Some erin_resource) = Some "erin-gh".
Proof.
  assert (Hacc : jenkinsv1_User.Accounts (jenkinsv1_User.Spec erin_resource) =
                 [jenkinsv1_User.mkAccount "jenkins.io/git-gitlab-userid" "erin-gl";
                  jenkinsv1_User.mkAccount "" "erin-anon"]
                 ++ jenkinsv1_User.mkAccount "jenkins.io/git-github-userid" "erin-gh"
                 :: [jenkinsv1_User.mkAccount "jenkins.io/git-github-userid" "erin-gh-2"])
    by reflexivity.
  assert (Hpre : Forall (fun b => jenkinsv1_User.Provider b
                                  <> GitProviderKey (Some resolver0))
                   [jenkinsv1_User.mkAccount "jenkins.io/git-gitlab-userid" "erin-gl";
                    jenkinsv1_User.mkAccount "" "erin-anon"])
    by (repeat constructor; discriminate).
  assert (Ha : jenkinsv1_User.Provider
                 (jenkinsv1_User.mkAccount "jenkins.io/git-github-userid" "erin-gh")
               = GitProviderKey (Some resolver0)) by reflexivity.
  exact (GitUserLogin_first_match (Some resolver0) erin_resource _ _ _ Hacc Hpre Ha).
Defined.

Lemma GitUserLogin_other_drivers_carol :
  GitUserLogin (Some resolver0) (Some carol_resource) = Some "".
Proof.
  assert (Hp : GitProvider resolver0 = Some directory) by reflexivity.
  assert (Hall : Forall (fun a =>
                    jenkinsv1_User.Provider a = "" \/
                    exists driver, driver <> Driver_String directory /\
                      jenkinsv1_User.Provider a
                      = "jenkins.io/git-" +:+ driver +:+ "-userid")
                   (jenkinsv1_User.Accounts (jenkinsv1_User.Spec carol_resource))).
  { constructor; [right; exists "gitlab"; split; [discriminate|reflexivity]|].
    constructor; [left; reflexivity|]. constructor. }
  exact (GitUserLogin_other_drivers resolver0 directory carol_resource Hp Hall).
Defined.

(** On a nil resolver the account that names no provider is reported. *)
Lemma GitUserLogin_without_client_erin :
  GitUserLogin (@None (GitUserResolver Directory MemoryStore)) (Some erin_resource)
  = Some "erin-anon".
Proof.
  assert (Hacc : jenkinsv1_User.Accounts (jenkinsv1_User.Spec erin_resource) =
                 [jenkinsv1_User.mkAccount "jenkins.io/git-gitlab-userid" "erin-gl"]
                 ++ jenkinsv1_User.mkAccount "" "erin-anon"
                 :: [jenkinsv1_User.mkAccount "jenkins.io/git-github-userid" "erin-gh";
                     jenkinsv1_User.mkAccount "jenkins.io/git-github-userid" "erin-gh-2"])
    by reflexivity.
  assert (Hpre : Forall (fun b => jenkinsv1_User.Provider b <> "")
                   [jenkinsv1_User.mkAccount "jenkins.io/git-gitlab-userid" "erin-gl"])
    by (repeat constructor; discriminate).
  assert (Ha : jenkinsv1_User.Provider (jenkinsv1_User.mkAccount "" "erin-anon") = "")
    by reflexivity.
  exact (GitUserLogin_without_client None erin_resource _ _ _
           (or_introl eq_refl) Hacc Hpre Ha).
Defined.
